(** * SQL-Handlers: a shallow embedding of the handler classes

    The repository is a thin layer over an ODBC driver and a data-frame
    library.  The embedding keeps the Python text recognisable: a handler
    object with its two attributes, methods as state-passing functions that
    either return or raise, the [allow_method] decorator as a higher-order
    function, and the driver as an interface whose answers the methods
    cannot influence. *)

From Stdlib Require Import List String Ascii Bool Arith Lia ZArith.
From Stdlib Require Import Permutation DecimalString.
Import ListNotations.
Open Scope string_scope.
Open Scope list_scope.

Set Implicit Arguments.

(** ** Python values, rows and data frames *)

(** Cell values as they reach the driver after [df.values.tolist()].  A finite
    float is identified by its [repr]; the three missing-value markers of
    pandas are kept apart because the code turns one into another. *)
Inductive value : Type :=
| VNone
| VNaN
| VNaT
| VStr (s : string)
| VInt (z : Z)
| VFloat (repr : string)
| VBool (b : bool).

Definition row := list value.

(** [pd.isna] / [pd.notnull] on one cell. *)
Definition isna (v : value) : bool :=
  match v with
  | VNone | VNaN | VNaT => true
  | _ => false
  end.

Definition notnull (v : value) : bool := negb (isna v).

(** [str(v)], as [Series.astype(str)] applies it cell by cell. *)
Definition py_str (v : value) : string :=
  match v with
  | VNone => "None"
  | VNaN => "nan"
  | VNaT => "NaT"
  | VStr s => s
  | VInt z => NilZero.string_of_int (Z.to_int z)
  | VFloat r => r
  | VBool true => "True"
  | VBool false => "False"
  end.

Inductive dtype : Type := object | int64 | float64 | bool_ | datetime64.

Definition dtype_eqb (a b : dtype) : bool :=
  match a, b with
  | object, object | int64, int64 | float64, float64
  | bool_, bool_ | datetime64, datetime64 => true
  | _, _ => false
  end.

Record DataFrame : Type := mkFrame {
  columns : list string;
  dtypes : list dtype;
  values : list row
}.

(** Position of a column label; [None] is pandas' [KeyError]. *)
Fixpoint col_index (c : string) (cs : list string) : option nat :=
  match cs with
  | [] => None
  | x :: xs =>
      if String.eqb c x then Some 0
      else match col_index c xs with
           | Some i => Some (S i)
           | None => None
           end
  end.

(** In-place update of a list cell; out of range leaves the list alone. *)
Fixpoint set_nth {A} (i : nat) (f : A -> A) (l : list A) {struct l} : list A :=
  match l with
  | [] => []
  | x :: xs =>
      match i with
      | 0 => f x :: xs
      | S j => x :: set_nth j f xs
      end
  end.

Definition cell (i : nat) (r : row) : value := nth i r VNaN.

(** [df.dropna()]: keep the rows without a missing cell. *)
Definition dropna (df : DataFrame) : DataFrame :=
  mkFrame (columns df) (dtypes df) (filter (forallb notnull) (values df)).

(** [df[col].dtype] *)
Definition col_dtype (df : DataFrame) (i : nat) : dtype := nth i (dtypes df) object.

(** [df[col] = df[col].fillna(v)] at column position [i]. *)
Definition fillna_col (i : nat) (v : value) (df : DataFrame) : DataFrame :=
  mkFrame (columns df) (dtypes df)
          (map (set_nth i (fun x => if isna x then v else x)) (values df)).

(** [df.astype(object).where(pd.notnull(df), None)] *)
Definition astype_object_where_notnull (df : DataFrame) : DataFrame :=
  mkFrame (columns df) (map (fun _ => object) (dtypes df))
          (map (map (fun x => if notnull x then x else VNone)) (values df)).

(** [df.loc[mask]] with the mask computed from column [i]. *)
Definition loc_rows (keep : value -> bool) (i : nat) (df : DataFrame) : DataFrame :=
  mkFrame (columns df) (dtypes df) (filter (fun r => keep (cell i r)) (values df)).

(** [df[col] = df[col].astype(str)] *)
Definition astype_str_col (i : nat) (df : DataFrame) : DataFrame :=
  mkFrame (columns df) (set_nth i (fun _ => object) (dtypes df))
          (map (set_nth i (fun x => VStr (py_str x))) (values df)).

(** [df[col] = None] *)
Definition assign_none_col (i : nat) (df : DataFrame) : DataFrame :=
  mkFrame (columns df) (set_nth i (fun _ => object) (dtypes df))
          (map (set_nth i (fun _ => VNone)) (values df)).

(** Keyword arguments of [bulk_insert], typed as its docstring types them. *)
Inductive kwval : Type := KNone | KBool (b : bool) | KStr (s : string).

Definition kwargs := list (string * kwval).

(** [kwargs.get(key, default)] *)
Fixpoint kwargs_get (kw : kwargs) (key : string) (default : kwval) : kwval :=
  match kw with
  | [] => default
  | (k, v) :: rest => if String.eqb k key then v else kwargs_get rest key default
  end.

Definition truthy (v : kwval) : bool :=
  match v with
  | KNone => false
  | KBool b => b
  | KStr s => negb (String.eqb s "")
  end.

(** ** Exceptions and outcomes *)

Inductive exn : Type :=
| ValueError (msg : string)
| TypeError (msg : string)
| KeyError (key : string)
| AttributeError (name : string)
| DriverError (msg : string).

Inductive outcome (A : Type) : Type :=
| Return (a : A)
| Raise (e : exn).
Arguments Return {A} a.
Arguments Raise {A} e.

(** ** The handler object and the outside world *)

Inductive handler_class : Type := SQLPyodbcHandler_ | SQLAlchemyHandler_ | SQLDatabase_.

Record handler : Type := mkHandler {
  cls : handler_class;
  connection_string : string;
  read_only : bool
}.

(** What [_conn] hands back: a pyodbc connection or a SQLAlchemy engine. *)
Inductive connection : Type :=
| Connection
| Engine (url : string).

(** Parameters as the code passes them to the driver: [None] or a tuple. *)
Definition pyparams := option row.

(** Every request that leaves the process. *)
Inductive call : Type :=
| Connect (cs : string)
| ReadSql (sql : string) (params : pyparams)
| CursorExecute (sql : string) (params : pyparams)
| CursorExecuteMany (sql : string) (rows : list row)
| Commit
| Rollback
| CreateEngine (url : string)
| ToSql (table schema : string) (df : DataFrame) (if_exists : string) (index : bool).

(** Lines written by [print]. *)
Inductive printed : Type :=
| PStr (s : string)
| PBlank
| PExn (e : exn)
| PRow (r : row).

(** The driver and the data-frame library are not part of the repository.
    They are an interface: each entry answers for one external call, with an
    error message on the left when that call raises.  A statement that fails
    leaves the transaction as it was. *)
Class Backend : Type := {
  DB : Type;
  (** [pyodbc.connect(cs)]: [Some msg] when it raises. *)
  connect_error : string -> option string;
  (** [cursor.execute(sql, params)]: the new transaction state and the result
      set, if the statement produced one. *)
  cursor_execute : string -> pyparams -> DB -> string + (DB * option (list row));
  (** [cursor.executemany(sql, rows)] with [fast_executemany]. *)
  cursor_executemany : string -> list row -> DB -> string + DB;
  (** [pd.read_sql(sql, conn, params=..., **kwargs)] *)
  read_sql : string -> pyparams -> kwargs -> DB -> string + (DB * DataFrame);
  (** [df.to_sql(table, schema=..., con=engine, if_exists='append', index=False)] *)
  to_sql : string -> string -> string -> DataFrame -> DB -> string + DB;
  (** [urllib.parse.quote_plus] *)
  quote_plus : string -> string
}.

Section World.
Context `{Backend}.

(** [self], the committed database, the view of the open transaction, the
    requests sent so far and the lines printed so far. *)
Record state : Type := mkState {
  self : handler;
  db : DB;
  txn : DB;
  calls : list call;
  stdout : list printed
}.

Definition M (A : Type) : Type := state -> outcome A * state.

Definition ret {A} (a : A) : M A := fun st => (Return a, st).

Definition raise {A} (e : exn) : M A := fun st => (Raise e, st).

Definition bind {A B} (m : M A) (k : A -> M B) : M B :=
  fun st =>
    match m st with
    | (Return a, st') => k a st'
    | (Raise e, st') => (Raise e, st')
    end.

(** [try: body  except Exception as e: handler(e)  else: orelse] *)
Definition try_except_else (body : M unit) (handle : exn -> M unit) (orelse : M unit)
  : M unit :=
  fun st =>
    match body st with
    | (Return _, st') => orelse st'
    | (Raise e, st') => handle e st'
    end.

Definition log_call (c : call) : M unit :=
  fun st => (Return tt, mkState (self st) (db st) (txn st) (calls st ++ [c]) (stdout st)).

Definition print (p : printed) : M unit :=
  fun st => (Return tt, mkState (self st) (db st) (txn st) (calls st) (stdout st ++ [p])).

Definition get_self : M handler := fun st => (Return (self st), st).

Definition get_txn : M DB := fun st => (Return (txn st), st).

Definition set_txn (d : DB) : M unit :=
  fun st => (Return tt, mkState (self st) (db st) d (calls st) (stdout st)).

(** A new connection starts from the committed database. *)
Definition begin_txn : M unit :=
  fun st => (Return tt, mkState (self st) (db st) (db st) (calls st) (stdout st)).

(** [conn.commit()] / [cursor.commit()] *)
Definition commit : M unit :=
  fun st => (Return tt, mkState (self st) (txn st) (txn st) (calls st ++ [Commit]) (stdout st)).

Definition rollback : M unit :=
  fun st => (Return tt, mkState (self st) (db st) (db st) (calls st ++ [Rollback]) (stdout st)).

End World.

Declare Scope py_scope.
Delimit Scope py_scope with py.
Notation "x <- c ;; k" := (bind c (fun x => k))
  (at level 100, c at next level, right associativity) : py_scope.
Notation "c ;;; k" := (bind c (fun _ => k))
  (at level 100, right associativity) : py_scope.
Open Scope py_scope.

(** ** The external calls, as the methods make them *)

Section Driver.
Context `{Backend}.

(** [pyodbc.connect(cs)]: a fresh connection sees the committed database. *)
Definition pyodbc_connect (cs : string) : M connection :=
  log_call (Connect cs) ;;;
  match connect_error cs with
  | Some msg => raise (DriverError msg)
  | None => begin_txn ;;; ret Connection
  end.

(** [with conn: body].  pyodbc's connection commits when the block ends
    normally and rolls back when an exception leaves it; an engine is not a
    context manager. *)
Definition with_ {A} (conn : connection) (body : M A) : M A :=
  match conn with
  | Engine _ => raise (AttributeError "__enter__")
  | Connection =>
      fun st =>
        match body st with
        | (Return a, st') => (Return a, snd (commit st'))
        | (Raise e, st') => (Raise e, snd (rollback st'))
        end
  end.

(** [c.execute(sql, params)] *)
Definition c_execute (sql : string) (params : pyparams) : M (option (list row)) :=
  log_call (CursorExecute sql params) ;;;
  d <- get_txn ;;
  match cursor_execute sql params d with
  | inl msg => raise (DriverError msg)
  | inr (d', rs) => set_txn d' ;;; ret rs
  end.

(** [.fetchall()] on what [execute] returned. *)
Definition fetchall (rs : option (list row)) : M (list row) :=
  match rs with
  | Some rows => ret rows
  | None => raise (DriverError "No results.  Previous SQL was not a query.")
  end.

(** [c.executemany(sql, values)] *)
Definition c_executemany (sql : string) (rows : list row) : M unit :=
  log_call (CursorExecuteMany sql rows) ;;;
  d <- get_txn ;;
  match cursor_executemany sql rows d with
  | inl msg => raise (DriverError msg)
  | inr d' => set_txn d'
  end.

(** [pd.read_sql(sql, conn, params=parameters, **kwargs)] *)
Definition pd_read_sql (sql : string) (params : pyparams) (kw : kwargs)
  : M DataFrame :=
  log_call (ReadSql sql params) ;;;
  d <- get_txn ;;
  match read_sql sql params kw d with
  | inl msg => raise (DriverError msg)
  | inr (d', df) => set_txn d' ;;; ret df
  end.

(** [df.to_sql(table, schema=schema, con=con, if_exists='append', index=False)]:
    the engine runs it in a transaction of its own. *)
Definition df_to_sql (df : DataFrame) (table schema : string) (con : connection)
  : M unit :=
  match con with
  | Connection => raise (DriverError "to_sql needs an engine")
  | Engine url =>
      log_call (ToSql table schema df "append" false) ;;;
      fun st =>
        match to_sql url table schema df (db st) with
        | inl msg => (Raise (DriverError msg), st)
        | inr d' => (Return tt, mkState (self st) d' (txn st) (calls st) (stdout st))
        end
  end.

(** [for x in xs: body(x)]; an exception ends the loop. *)
Fixpoint for_each {A} (xs : list A) (body : A -> M unit) : M unit :=
  match xs with
  | [] => ret tt
  | x :: rest => body x ;;; for_each rest body
  end.

End Driver.

(** [c in s] for a one-character needle. *)
Fixpoint contains_char (c : ascii) (s : string) : bool :=
  match s with
  | EmptyString => false
  | String a rest => Ascii.eqb a c || contains_char c rest
  end.

Definition kwval_eqb (a b : kwval) : bool :=
  match a, b with
  | KNone, KNone => true
  | KBool x, KBool y => Bool.eqb x y
  | KStr x, KStr y => String.eqb x y
  | _, _ => false
  end.

(** The label a keyword value stands for when used as [df[column]]. *)
Definition kw_label (v : kwval) : string :=
  match v with
  | KNone => "None"
  | KBool true => "True"
  | KBool false => "False"
  | KStr s => s
  end.

(** What [query] returns: a data frame, or the list of tuples of [fetchall]. *)
Inductive table : Type :=
| Frame (df : DataFrame)
| Tuples (rows : list row).

(** ** class SQLPyodbcHandler *)

Module SQLPyodbcHandler.
Section Methods.
Context `{Backend}.

Definition __init__ (c : handler_class) (connection_string : string) (read_only : bool)
  : handler :=
  mkHandler c connection_string read_only.

Definition allow_method (func : M unit) : M unit :=
  fun st =>
    if read_only (self st) then
      (print (PStr "Cannot perform operation. Access is read-only.") ;;; ret tt) st
    else func st.

Definition _conn : M connection :=
  s <- get_self ;;
  pyodbc_connect (connection_string s).

(** Calls through [self] are late bound: a subclass may override them. *)
Variable self__conn : M connection.

Definition query (sql_query_statement : string) (parameters : pyparams)
           (pandas_dataframe : bool) (kw : kwargs) : M table :=
  conn <- self__conn ;;
  with_ conn
    (if pandas_dataframe then
       df <- pd_read_sql sql_query_statement parameters kw ;;
       ret (Frame df)
     else
       cur <- c_execute sql_query_statement parameters ;;
       rows <- fetchall cur ;;
       ret (Tuples rows)).

Definition execute (sql_statement : string) (parameters : row) : M unit :=
  allow_method
    (conn <- self__conn ;;
     with_ conn (c_execute sql_statement (Some parameters) ;;; ret tt)).

Definition iter_execute (parameterized_sql_statement : string) (values : list row)
           (error_handling : string) : M unit :=
  allow_method
    (if negb (contains_char "?" parameterized_sql_statement) then
       raise (ValueError "Sql statement must be parameterized.")
     else
       conn <- self__conn ;;
       if String.eqb error_handling "raise" then
         with_ conn
           (for_each values
              (fun row => c_execute parameterized_sql_statement (Some row) ;;; ret tt))
       else if String.eqb error_handling "ignore" then
         with_ conn
           (for_each values
              (fun row =>
                 try_except_else
                   (c_execute parameterized_sql_statement (Some row) ;;; ret tt)
                   (fun e => print PBlank ;;; print (PExn e) ;;;
                             print (PRow row) ;;; print PBlank)
                   commit))
       else
         raise (TypeError
           "Invalid argument for 'error_handling'. Argument must be 'raise' or 'ignore'.")).

Definition insert_statement (c : list string) (table_name : string)
           (identity_insert_on : kwval) : string :=
  let columns := String.concat "," c in
  let params := String.concat "," (map (fun _ => "?") (seq 0 (List.length c))) in
  let sql_insert_statement :=
    ("INSERT INTO " ++ table_name ++ " (" ++ columns ++ ") VALUES (" ++ params ++ ");")%string in
  if truthy identity_insert_on then
    ("SET IDENTITY_INSERT " ++ table_name ++ " ON; " ++ sql_insert_statement
      ++ " SET IDENTITY_INSERT " ++ table_name ++ " OFF;")%string
  else sql_insert_statement.

(** [conn.autocommit=False] restates pyodbc's default, under which [with_]
    is written, and [c.fast_executemany = True] selects how the driver ships
    the batch; neither changes what is sent. *)
Definition _insert_values (df : DataFrame) (table_name : string)
           (identity_insert_on : kwval) : M unit :=
  allow_method
    (let sql_insert_statement :=
       insert_statement (columns df) table_name identity_insert_on in
     let values := values df in
     if Nat.ltb 0 (List.length values) then
       conn <- self__conn ;;
       with_ conn (c_executemany sql_insert_statement values ;;; commit)
     else ret tt).

(** [df[column]] looks the label up among the column labels, which are
    strings; any other key is a [KeyError]. *)
Definition _separate_nulls (df : DataFrame) (column : kwval)
  : M (DataFrame * DataFrame) :=
  match column with
  | KStr label =>
      match col_index label (columns df) with
      | None => raise (KeyError label)
      | Some i =>
          let values := loc_rows notnull i df in
          let nulls := loc_rows isna i df in
          let nulls := astype_str_col i nulls in
          let nulls := assign_none_col i nulls in
          ret (values, nulls)
      end
  | other => raise (KeyError (kw_label other))
  end.

Variable self__insert_values : DataFrame -> string -> kwval -> M unit.
Variable self__separate_nulls : DataFrame -> kwval -> M (DataFrame * DataFrame).

(** The body of the loop of the ['*'] branch, for one column label. *)
Definition fill_column (df : DataFrame) (col : string) : DataFrame :=
  match col_index col (columns df) with
  | Some i =>
      if dtype_eqb (col_dtype df i) object
      then fillna_col i (VStr "") df
      else df
  | None => df
  end.

(** [for col in df.columns: ...] *)
Definition fill_text_columns (df : DataFrame) : DataFrame :=
  fold_left fill_column (columns df) df.

(** The frame is an argument, not part of the state: the method is followed
    through what it returns, requests, commits and prints.  What
    [df.dropna(inplace=True)] and the assignments of the ['*'] loop leave in
    the caller's own frame is outside this embedding. *)
Definition bulk_insert (df : DataFrame) (table_name : string) (kw : kwargs) : M unit :=
  allow_method
    (let remove_nulls := kwargs_get kw "remove_nulls" (KBool false) in
     let handle_nulls := kwargs_get kw "handle_nulls" KNone in
     let identity_insert_on := kwargs_get kw "identity_insert_on" (KBool false) in
     let df := if truthy remove_nulls then dropna df else df in
     if kwval_eqb handle_nulls (KStr "*") then
       let df := fill_text_columns df in
       let df := astype_object_where_notnull df in
       self__insert_values df table_name identity_insert_on
     else if negb (kwval_eqb handle_nulls KNone) then
       vn <- self__separate_nulls df handle_nulls ;;
       let '(values, nulls) := vn in
       self__insert_values values table_name identity_insert_on ;;;
       self__insert_values nulls table_name identity_insert_on
     else
       self__insert_values df table_name identity_insert_on).

End Methods.
End SQLPyodbcHandler.

(** ** class SQLAlchemyHandler(SQLPyodbcHandler) *)

Module SQLAlchemyHandler.
Section Methods.
Context `{Backend}.

Definition _sqlalchemy_conn : M connection :=
  s <- get_self ;;
  let quoted := quote_plus (connection_string s) in
  let x := ("mssql+pyodbc:///?odbc_connect=" ++ quoted)%string in
  log_call (CreateEngine x) ;;;
  ret (Engine x).

Definition _conn : M connection := _sqlalchemy_conn.

Definition _insert_values (df : DataFrame) (table_name : string)
           (insert_identity_on : kwval) : M unit :=
  con <- _conn ;;
  df_to_sql df table_name "dbo" con.

Definition _separate_nulls (df : DataFrame) (column : kwval)
  : M (DataFrame * DataFrame) :=
  SQLPyodbcHandler._separate_nulls df column.

(** [super().bulk_insert(df, table_name, **kwargs)]: the inherited body,
    with [self] still the alternate handler. *)
Definition bulk_insert (df : DataFrame) (table_name : string) (kw : kwargs) : M unit :=
  SQLPyodbcHandler.bulk_insert _insert_values _separate_nulls df table_name kw.

(** [def query(self): pass] and its two siblings take no argument besides
    [self]; [extra] counts the arguments of the call. *)
Definition stub (name : string) (extra : nat) : M unit :=
  match extra with
  | 0 => ret tt
  | S _ => raise (TypeError (name ++ "() takes 1 positional argument")%string)
  end.

Definition query (extra : nat) : M unit := stub "query" extra.
Definition execute (extra : nat) : M unit := stub "execute" extra.
Definition iter_execute (extra : nat) : M unit := stub "iter_execute" extra.

End Methods.
End SQLAlchemyHandler.

(** ** class ConnectionString *)

Module ConnectionString.

(** The instance: the four attributes [__init__] assigns. *)
Record t : Type := mk {
  prod : string;
  dev : string;
  qa : string;
  local : string
}.

Definition __init__ : t :=
  {| prod := "Driver={ODBC Driver 17 for SQL Server}; Server=XXXXXXX; Database=ProdDatabaseName; Trusted_Connection=yes;";
     dev := "Driver={ODBC Driver 17 for SQL Server}; Server=XXXXXXX; Database=DevDatabasename; Trusted_Connection=yes;";
     qa := "Driver={ODBC Driver 17 for SQL Server}; Server=XXXXXXX; Database=QADatabaseName; Trusted_Connection=yes;";
     local := "Driver={ODBC Driver 17 for SQL Server}; Server=(localDB)\MSSQLLocalDB; Database=MyLocalDb;" |}.

(** [getattr(self, db_type)], read as a lookup in the store: [Some] for an
    attribute [__init__] assigned, [None] for every other name (which
    resolves, if at all, to something that is not a connection string). *)
Definition create_string (self : t) (db_type : string) : option string :=
  if String.eqb db_type "prod" then Some (prod self)
  else if String.eqb db_type "dev" then Some (dev self)
  else if String.eqb db_type "qa" then Some (qa self)
  else if String.eqb db_type "local" then Some (local self)
  else None.

End ConnectionString.

(** ** class SQLDatabase(SQLPyodbcHandler) *)

Module SQLDatabase.

(** A keyword parameter with a default: [None] when the caller omits it. *)
Definition default_arg (given : option bool) (default : bool) : bool :=
  match given with
  | Some b => b
  | None => default
  end.

Definition prod (c : handler_class) (read_only : option bool) : handler :=
  SQLPyodbcHandler.__init__ c (ConnectionString.prod ConnectionString.__init__)
    (default_arg read_only true).

Definition qa (c : handler_class) (read_only : option bool) : handler :=
  SQLPyodbcHandler.__init__ c (ConnectionString.qa ConnectionString.__init__)
    (default_arg read_only false).

Definition dev (c : handler_class) (read_only : option bool) : handler :=
  SQLPyodbcHandler.__init__ c (ConnectionString.dev ConnectionString.__init__)
    (default_arg read_only false).

Definition local (c : handler_class) (read_only : option bool) : handler :=
  SQLPyodbcHandler.__init__ c (ConnectionString.local ConnectionString.__init__)
    (default_arg read_only false).

(** The newline of the source text inside the triple-quoted statements. *)
Definition nl : string := String (ascii_of_nat 10) EmptyString.

Definition tables_statement : string :=
  (nl ++ "            SELECT * FROM sys.tables"
      ++ nl ++ "            WHERE SCHEMA_NAME(schema_id) = 'dbo';"
      ++ nl ++ "            ")%string.

Definition views_statement : string :=
  (nl ++ "            SELECT * FROM sys.objects"
      ++ nl ++ "            WHERE type_desc = 'VIEW';"
      ++ nl ++ "            ")%string.

(** The f-string of [get_view_definition]. *)
Definition view_definition_statement (view_name : string) : string :=
  (nl ++ "            EXEC sp_helptext " ++ view_name ++ ";"
      ++ nl ++ "            ")%string.

Section Metadata.
Context `{Backend}.

(** [self.query], called with the statement alone: [parameters=None],
    [pandas_dataframe=True], no keyword argument. *)
Variable self_query : string -> pyparams -> bool -> kwargs -> M table.

Definition get_tables : M table := self_query tables_statement None true [].

Definition get_views : M table := self_query views_statement None true [].

Definition get_view_definition (view_name : string) : M table :=
  self_query (view_definition_statement view_name) None true [].

End Metadata.

End SQLDatabase.

(** ** A small concrete driver

    A journal database: every accepted statement is appended with its
    parameters.  It refuses an empty connection string, reads only through
    statements that start with [S], and, when [strict], refuses any parameter
    row that holds a missing value. *)

Module Journal.

Definition db : Type := list (string * row).

Definition has_null (r : row) : bool := existsb isna r.

Definition is_select (sql : string) : bool :=
  match sql with
  | String "S" _ => true
  | _ => false
  end.

Definition execute (strict : bool) (sql : string) (params : pyparams) (d : db)
  : string + (db * option (list row)) :=
  match params with
  | None => inl "parameter count"
  | Some r =>
      if strict && has_null r then inl "NULL not allowed"
      else if is_select sql then inr (d, Some (map snd d))
      else inr (d ++ [(sql, r)], None)
  end.

Definition executemany (strict : bool) (sql : string) (rows : list row) (d : db)
  : string + db :=
  if strict && existsb has_null rows then inl "NULL not allowed"
  else inr (d ++ map (fun r => (sql, r)) rows).

Definition read (sql : string) (params : pyparams) (kw : kwargs) (d : db)
  : string + (db * DataFrame) :=
  if is_select sql then inr (d, mkFrame ["stmt"] [object] (map snd d))
  else inl "not a query".

Definition write_table (url table schema : string) (df : DataFrame) (d : db)
  : string + db :=
  inr (d ++ map (fun r => (table, r)) (values df)).

Definition backend (strict : bool) : Backend :=
  {| DB := db;
     connect_error := fun cs => if String.eqb cs "" then Some "IM002" else None;
     cursor_execute := execute strict;
     cursor_executemany := executemany strict;
     read_sql := read;
     to_sql := write_table;
     quote_plus := fun s => s |}.

Definition start (strict : bool) (h : handler) : @state (backend strict) :=
  @mkState (backend strict) h [] [] [] [].

(** Sample data. *)
Definition users_sql : string := "INSERT INTO USERS (ID, Name) VALUES (?, ?);".

Definition mary : row := [VInt 1; VStr "Mary"].
Definition anonymous : row := [VInt 2; VNone].
Definition bill : row := [VInt 3; VStr "Bill"].

Definition users : DataFrame :=
  mkFrame ["ID"; "Name"] [int64; object] [mary; anonymous; bill].

Definition scores : DataFrame :=
  mkFrame ["ID"; "Name"; "Score"] [int64; object; float64]
          [[VInt 1; VStr "Mary"; VNaN];
           [VInt 2; VNone; VFloat "1.5"];
           [VInt 3; VStr "Bill"; VFloat "2.0"]].

Definition nobody : DataFrame := mkFrame ["ID"; "Name"] [int64; object] [].

(** Sample handles, each in a fresh world. *)
Definition prod : @state (backend true) :=
  start true (SQLDatabase.prod SQLDatabase_ None).

Definition dev : @state (backend true) :=
  start true (SQLDatabase.dev SQLDatabase_ None).

Definition dev_lenient : @state (backend false) :=
  start false (SQLDatabase.dev SQLDatabase_ None).

Definition alchemy : @state (backend false) :=
  start false (SQLPyodbcHandler.__init__ SQLAlchemyHandler_ "DSN=warehouse" false).

(** A handle whose connection string the driver refuses. *)
Definition offline : @state (backend true) :=
  start true (SQLPyodbcHandler.__init__ SQLPyodbcHandler_ "" false).

(** A variant of the driver that answers every read, whatever the statement
    looks like, with the journal as a one-column frame. *)
Definition read_any (sql : string) (params : pyparams) (kw : kwargs) (d : db)
  : string + (db * DataFrame) :=
  inr (d, mkFrame ["stmt"] [object] (map snd d)).

Definition catalog_backend : Backend :=
  {| DB := db;
     connect_error := fun cs => if String.eqb cs "" then Some "IM002" else None;
     cursor_execute := execute true;
     cursor_executemany := executemany true;
     read_sql := read_any;
     to_sql := write_table;
     quote_plus := fun s => s |}.

Definition reporting : @state catalog_backend :=
  @mkState catalog_backend (SQLDatabase.prod SQLDatabase_ None) [] [] [] [].

End Journal.

(** ** Observations on frames and requests, used to state the properties *)

(** A frame as pandas builds it from tabular data: distinct labels, one dtype
    per label, one cell per label in every row. *)
Definition wf_frame (df : DataFrame) : Prop :=
  NoDup (columns df) /\
  List.length (dtypes df) = List.length (columns df) /\
  Forall (fun r : row => List.length r = List.length (columns df)) (values df).

(** What the all-text-columns policy asks of one cell of dtype [t]. *)
Definition star_cell (t : dtype) (x : value) : value :=
  if isna x then (if dtype_eqb t object then VStr "" else VNone) else x.

Fixpoint star_row (ts : list dtype) (r : row) : row :=
  match r with
  | [] => []
  | x :: r' =>
      match ts with
      | [] => star_cell object x :: star_row [] r'
      | t :: ts' => star_cell t x :: star_row ts' r'
      end
  end.

(** [fillna('')] on one cell. *)
Definition fill_text (x : value) : value := if isna x then VStr "" else x.

(** One turn of the loop over the text columns, seen from one row. *)
Definition row_step (cs : list string) (ts : list dtype) (r : row) (c : string) : row :=
  match col_index c cs with
  | Some i => if dtype_eqb (nth i ts object) object then set_nth i fill_text r else r
  | None => r
  end.

(** Whether some turn of the loop over [cols] rewrites position [j]. *)
Definition rewritten (cs : list string) (ts : list dtype) (cols : list string) (j : nat)
  : bool :=
  existsb (fun c => match col_index c cs with
                    | Some i => Nat.eqb i j && dtype_eqb (nth i ts object) object
                    | None => false
                    end) cols.

(** The tables written through [to_sql], with every argument of the call. *)
Definition written_tables (cs : list call)
  : list (string * string * DataFrame * string * bool) :=
  flat_map (fun c => match c with
                     | ToSql t s f e i => [(t, s, f, e, i)]
                     | _ => []
                     end) cs.

(** The row sets handed to [executemany], in order. *)
Definition insert_passes (cs : list call) : list (list row) :=
  flat_map (fun c => match c with
                     | CursorExecuteMany _ rows => [rows]
                     | _ => []
                     end) cs.

Definition nonempty_parts (parts : list (list row)) : list (list row) :=
  filter (fun p => Nat.ltb 0 (List.length p)) parts.

(** The batches handed to [executemany], each with its statement. *)
Definition batches (cs : list call) : list (string * list row) :=
  flat_map (fun c => match c with
                     | CursorExecuteMany sql rows => [(sql, rows)]
                     | _ => []
                     end) cs.

(** How often a character occurs in a string. *)
Fixpoint count_char (c : ascii) (s : string) : nat :=
  match s with
  | EmptyString => 0
  | String a rest => (if Ascii.eqb a c then 1 else 0) + count_char c rest
  end.

(** A cell pyodbc can bind: a value or [None], never [NaN] or [NaT]. *)
Definition bindable (x : value) : bool :=
  match x with
  | VNaN | VNaT => false
  | _ => true
  end.

(** ** Observations on states, used to state the properties *)

Section Observations.
Context `{Backend}.

(** The state after the guard has answered: one more line on [stdout]. *)
Definition refused (st : state) : state :=
  mkState (self st) (db st) (txn st) (calls st)
          (stdout st ++ [PStr "Cannot perform operation. Access is read-only."]).

(** The state after [pyodbc.connect] has succeeded. *)
Definition connected (st : state) : state :=
  mkState (self st) (db st) (db st)
          (calls st ++ [Connect (connection_string (self st))]) (stdout st).

(** The state after [pyodbc.connect] has raised. *)
Definition unreachable (st : state) : state :=
  mkState (self st) (db st) (txn st)
          (calls st ++ [Connect (connection_string (self st))]) (stdout st).

(** The URL the alternate handler builds its engine from. *)
Definition engine_url (st : state) : string :=
  ("mssql+pyodbc:///?odbc_connect=" ++ quote_plus (connection_string (self st)))%string.

(** Requests that carry SQL or data to the database. *)
Definition is_statement (c : call) : bool :=
  match c with
  | ReadSql _ _ | CursorExecute _ _ | CursorExecuteMany _ _ | ToSql _ _ _ _ _ => true
  | Connect _ | Commit | Rollback | CreateEngine _ => false
  end.

Definition statements (cs : list call) : list call := filter is_statement cs.

(** "Same contract", read on one call from one state: where the base
    handler returns the alternate handler returns, and where the base
    handler sends a statement the alternate handler sends one. *)
Definition same_contract {A B} (base : M A) (alt : M B) (st : state) : Prop :=
  (forall a, fst (base st) = Return a -> exists b, fst (alt st) = Return b) /\
  (statements (calls (snd (base st))) <> statements (calls st) ->
   statements (calls (snd (alt st))) <> statements (calls st)).

(** A computation that never assigns to an attribute of [self]. *)
Definition keeps_self {A} (m : M A) : Prop :=
  forall st, self (snd (m st)) = self st.

(** The database after every row of a batch has been offered to the
    driver in turn, a refused row leaving it as it was. *)
Fixpoint apply_rows (sql : string) (rows : list row) (d : DB) : DB :=
  match rows with
  | [] => d
  | r :: rest =>
      match cursor_execute sql (Some r) d with
      | inl _ => apply_rows sql rest d
      | inr (d', _) => apply_rows sql rest d'
      end
  end.

(** Position and message of the first row the driver refuses. *)
Fixpoint first_failure (sql : string) (rows : list row) (d : DB)
  : option (nat * string) :=
  match rows with
  | [] => None
  | r :: rest =>
      match cursor_execute sql (Some r) d with
      | inl msg => Some (0, msg)
      | inr (d', _) =>
          match first_failure sql rest d' with
          | Some (i, msg) => Some (S i, msg)
          | None => None
          end
      end
  end.

(** The requests of a batch in which every accepted row is committed on
    its own. *)
Fixpoint row_by_row (sql : string) (rows : list row) (d : DB) : list call :=
  match rows with
  | [] => []
  | r :: rest =>
      match cursor_execute sql (Some r) d with
      | inl _ => CursorExecute sql (Some r) :: row_by_row sql rest d
      | inr (d', _) => CursorExecute sql (Some r) :: Commit :: row_by_row sql rest d'
      end
  end.

(** The lines reporting the refused rows of a batch. *)
Fixpoint failure_report (sql : string) (rows : list row) (d : DB) : list printed :=
  match rows with
  | [] => []
  | r :: rest =>
      match cursor_execute sql (Some r) d with
      | inl msg =>
          [PBlank; PExn (DriverError msg); PRow r; PBlank] ++ failure_report sql rest d
      | inr (d', _) => failure_report sql rest d'
      end
  end.

(** One [execute] request per row. *)
Definition one_per_row (sql : string) (rows : list row) : list call :=
  map (fun r => CursorExecute sql (Some r)) rows.

End Observations.

(** * Properties *)

(** ** The connection-string store and the named constructors *)

(** C7: the store answers for exactly the names local, dev, qa and prod, and
    each named constructor of the SQL-Server facade builds a handler whose
    connection string is the store's string for that name. *)
Theorem named_constructors_use_store :
  (forall name,
      (exists s, ConnectionString.create_string ConnectionString.__init__ name = Some s)
      <-> In name ["local"; "dev"; "qa"; "prod"]) /\
  (forall c ro,
      Some (connection_string (SQLDatabase.prod c ro))
        = ConnectionString.create_string ConnectionString.__init__ "prod" /\
      Some (connection_string (SQLDatabase.qa c ro))
        = ConnectionString.create_string ConnectionString.__init__ "qa" /\
      Some (connection_string (SQLDatabase.dev c ro))
        = ConnectionString.create_string ConnectionString.__init__ "dev" /\
      Some (connection_string (SQLDatabase.local c ro))
        = ConnectionString.create_string ConnectionString.__init__ "local").
Proof.
  split.
  - intro name. unfold ConnectionString.create_string. split.
    + intros [s Hs].
      destruct (String.eqb_spec name "prod") as [->|_]; [simpl; tauto|].
      destruct (String.eqb_spec name "dev") as [->|_]; [simpl; tauto|].
      destruct (String.eqb_spec name "qa") as [->|_]; [simpl; tauto|].
      destruct (String.eqb_spec name "local") as [->|_]; [simpl; tauto|].
      discriminate.
    + intros [<-|[<-|[<-|[<-|[]]]]]; simpl; eexists; reflexivity.
  - intros c ro. repeat split.
Qed.

(** C8: omitted, [read_only] is [True] for prod and [False] for dev, qa and
    local; given, it is passed on as it is. *)
Theorem prod_defaults_to_read_only :
  forall c,
    read_only (SQLDatabase.prod c None) = true /\
    read_only (SQLDatabase.dev c None) = false /\
    read_only (SQLDatabase.qa c None) = false /\
    read_only (SQLDatabase.local c None) = false /\
    (forall b,
        read_only (SQLDatabase.prod c (Some b)) = b /\
        read_only (SQLDatabase.dev c (Some b)) = b /\
        read_only (SQLDatabase.qa c (Some b)) = b /\
        read_only (SQLDatabase.local c (Some b)) = b).
Proof.
  intro c. repeat split.
Qed.

(** ** The read-only guard *)

Section Guard.
Context `{Backend}.

Lemma allow_method_read_only (func : M unit) (st : state) :
  read_only (self st) = true ->
  SQLPyodbcHandler.allow_method func st = (Return tt, refused st).
Proof.
  intro Hro. unfold SQLPyodbcHandler.allow_method. rewrite Hro. reflexivity.
Qed.

Lemma allow_method_writable (func : M unit) (st : state) :
  read_only (self st) = false ->
  SQLPyodbcHandler.allow_method func st = func st.
Proof.
  intro Hro. unfold SQLPyodbcHandler.allow_method. rewrite Hro. reflexivity.
Qed.

(** C1: on a read-only handle, [execute], [iter_execute] and [bulk_insert]
    print the refusal and return [None]; no request reaches the driver, the
    database is untouched and nothing is raised, whatever the arguments and
    whatever subclass methods [self] resolves to. *)
Theorem read_only_suppresses_mutation
        (conn : M connection)
        (ins : DataFrame -> string -> kwval -> M unit)
        (sep : DataFrame -> kwval -> M (DataFrame * DataFrame))
        (st : state) :
  read_only (self st) = true ->
  (forall sql params,
      SQLPyodbcHandler.execute conn sql params st = (Return tt, refused st)) /\
  (forall sql rows mode,
      SQLPyodbcHandler.iter_execute conn sql rows mode st = (Return tt, refused st)) /\
  (forall df table kw,
      SQLPyodbcHandler.bulk_insert ins sep df table kw st = (Return tt, refused st)) /\
  calls (refused st) = calls st /\ db (refused st) = db st.
Proof.
  intro Hro. repeat split; intros; apply allow_method_read_only; exact Hro.
Qed.

End Guard.

(** ** Nothing assigns to [self] *)

Create HintDb frame.

Section Frame.
Context `{Backend}.

Lemma keeps_self_ret {A} (a : A) : keeps_self (ret a).
Proof. intro st. reflexivity. Qed.

Lemma keeps_self_raise {A} (e : exn) : keeps_self (@raise _ A e).
Proof. intro st. reflexivity. Qed.

Lemma keeps_self_bind {A B} (m : M A) (k : A -> M B) :
  keeps_self m -> (forall a, keeps_self (k a)) -> keeps_self (bind m k).
Proof.
  intros Hm Hk st. unfold bind. specialize (Hm st).
  destruct (m st) as [[a|e] st']; simpl in *.
  - rewrite Hk. exact Hm.
  - exact Hm.
Qed.

Lemma keeps_self_log_call c : keeps_self (log_call c).
Proof. intro st. reflexivity. Qed.

Lemma keeps_self_print p : keeps_self (print p).
Proof. intro st. reflexivity. Qed.

Lemma keeps_self_get_self : keeps_self get_self.
Proof. intro st. reflexivity. Qed.

Lemma keeps_self_get_txn : keeps_self get_txn.
Proof. intro st. reflexivity. Qed.

Lemma keeps_self_set_txn d : keeps_self (set_txn d).
Proof. intro st. reflexivity. Qed.

Lemma keeps_self_begin_txn : keeps_self begin_txn.
Proof. intro st. reflexivity. Qed.

Lemma keeps_self_commit : keeps_self commit.
Proof. intro st. reflexivity. Qed.

Lemma keeps_self_rollback : keeps_self rollback.
Proof. intro st. reflexivity. Qed.

#[local] Hint Resolve keeps_self_ret keeps_self_raise keeps_self_log_call keeps_self_print
  keeps_self_get_self keeps_self_get_txn keeps_self_set_txn keeps_self_begin_txn
  keeps_self_commit keeps_self_rollback : frame.

Ltac frame := repeat (apply keeps_self_bind; [|intro]); auto with frame.

Lemma keeps_self_pyodbc_connect cs : keeps_self (pyodbc_connect cs).
Proof.
  unfold pyodbc_connect. destruct (connect_error cs); frame.
Qed.

Lemma keeps_self_conn : keeps_self SQLPyodbcHandler._conn.
Proof.
  unfold SQLPyodbcHandler._conn.
  apply keeps_self_bind; [apply keeps_self_get_self|intro s].
  apply keeps_self_pyodbc_connect.
Qed.

Lemma keeps_self_with {A} conn (body : M A) :
  keeps_self body -> keeps_self (with_ conn body).
Proof.
  intros Hb. destruct conn; simpl; [|apply keeps_self_raise].
  intro st. specialize (Hb st). destruct (body st) as [[a|e] st']; exact Hb.
Qed.

Lemma keeps_self_c_execute sql params : keeps_self (c_execute sql params).
Proof.
  unfold c_execute. frame.
  destruct (cursor_execute sql params a0) as [msg|[d' rs]]; frame.
Qed.

Lemma keeps_self_fetchall rs : keeps_self (fetchall rs).
Proof. destruct rs; simpl; auto with frame. Qed.

Lemma keeps_self_pd_read_sql sql params kw : keeps_self (pd_read_sql sql params kw).
Proof.
  unfold pd_read_sql. frame.
  destruct (read_sql sql params kw a0) as [msg|[d' df]]; frame.
Qed.

Lemma keeps_self_query sql params pdf kw :
  keeps_self (SQLPyodbcHandler.query SQLPyodbcHandler._conn sql params pdf kw).
Proof.
  unfold SQLPyodbcHandler.query.
  apply keeps_self_bind; [apply keeps_self_conn|intro conn].
  apply keeps_self_with. destruct pdf.
  - apply keeps_self_bind; [apply keeps_self_pd_read_sql|intro; apply keeps_self_ret].
  - apply keeps_self_bind; [apply keeps_self_c_execute|intro rs].
    apply keeps_self_bind; [apply keeps_self_fetchall|intro; apply keeps_self_ret].
Qed.

Lemma conn_connected (st : state) :
  connect_error (connection_string (self st)) = None ->
  SQLPyodbcHandler._conn st = (Return Connection, connected st).
Proof.
  intro Hc. unfold SQLPyodbcHandler._conn, pyodbc_connect, bind, get_self, log_call.
  simpl. rewrite Hc. reflexivity.
Qed.

Lemma conn_refused (st : state) msg :
  connect_error (connection_string (self st)) = Some msg ->
  SQLPyodbcHandler._conn st
  = (Raise (DriverError msg),
     mkState (self st) (db st) (txn st)
             (calls st ++ [Connect (connection_string (self st))]) (stdout st)).
Proof.
  intro Hc. unfold SQLPyodbcHandler._conn, pyodbc_connect, bind, get_self, log_call.
  simpl. rewrite Hc. reflexivity.
Qed.

(** C5: [query] is not guarded by the read-only flag.  Once the connection
    opens it sends the statement with its parameters, and when the driver
    answers with a result set the call returns it, as a data frame by
    default and as the list of tuples when [pandas_dataframe] is false.  In
    every case, failure included, [connection_string] and [read_only] are
    after the call what they were before. *)
Theorem query_returns_table_and_keeps_handle
        (st : state) (sql : string) (params : pyparams) (kw : kwargs) :
  (forall pdf,
      let r := SQLPyodbcHandler.query SQLPyodbcHandler._conn sql params pdf kw st in
      connection_string (self (snd r)) = connection_string (self st) /\
      read_only (self (snd r)) = read_only (self st)) /\
  (connect_error (connection_string (self st)) = None ->
   (forall d' df,
       read_sql sql params kw (db st) = inr (d', df) ->
       let r := SQLPyodbcHandler.query SQLPyodbcHandler._conn sql params true kw st in
       fst r = Return (Frame df) /\
       calls (snd r) = calls (connected st) ++ [ReadSql sql params; Commit]) /\
   (forall d' rows,
       cursor_execute sql params (db st) = inr (d', Some rows) ->
       let r := SQLPyodbcHandler.query SQLPyodbcHandler._conn sql params false kw st in
       fst r = Return (Tuples rows) /\
       calls (snd r) = calls (connected st) ++ [CursorExecute sql params; Commit])).
Proof.
  split.
  - intros pdf r. subst r. rewrite keeps_self_query. split; reflexivity.
  - intro Hc. split.
    + intros d' df Hr r. subst r.
      unfold SQLPyodbcHandler.query, bind. rewrite (conn_connected _ Hc).
      simpl. unfold pd_read_sql, bind, log_call, get_txn. simpl. rewrite Hr. simpl.
      rewrite <- app_assoc. split; reflexivity.
    + intros d' rows Hr r. subst r.
      unfold SQLPyodbcHandler.query, bind. rewrite (conn_connected _ Hc).
      simpl. unfold c_execute, bind, log_call, get_txn. simpl. rewrite Hr. simpl.
      rewrite <- app_assoc. split; reflexivity.
Qed.

End Frame.

(** ** Argument checks of [iter_execute] *)

Section Validation.
Context `{Backend}.

Lemma connected_statements (st : state) :
  statements (calls (connected st)) = statements (calls st).
Proof.
  unfold statements, connected. simpl. rewrite filter_app. simpl.
  apply app_nil_r.
Qed.

(** C9, as the code has it: on a writable handle, a statement without a [?]
    marker raises [ValueError] before anything else happens.  With a marker
    the connection is opened first: when it opens, a mode other than
    ['raise'] and ['ignore'] raises [TypeError]; when it does not, the
    driver's error is raised instead, whatever the mode.  None of the three
    sends a statement.  On a read-only handle the same calls print the
    refusal and return [None], since the guard comes first. *)
Theorem iter_execute_validates_arguments
        (st : state) (sql : string) (rows : list row) (mode : string) :
  (read_only (self st) = false ->
   contains_char "?" sql = false ->
   SQLPyodbcHandler.iter_execute SQLPyodbcHandler._conn sql rows mode st
   = (Raise (ValueError "Sql statement must be parameterized."), st)) /\
  (read_only (self st) = false ->
   contains_char "?" sql = true ->
   mode <> "raise" -> mode <> "ignore" ->
   connect_error (connection_string (self st)) = None ->
   SQLPyodbcHandler.iter_execute SQLPyodbcHandler._conn sql rows mode st
   = (Raise (TypeError
        "Invalid argument for 'error_handling'. Argument must be 'raise' or 'ignore'."),
      connected st)
   /\ statements (calls (connected st)) = statements (calls st)) /\
  (read_only (self st) = false ->
   contains_char "?" sql = true ->
   forall msg,
     connect_error (connection_string (self st)) = Some msg ->
     SQLPyodbcHandler.iter_execute SQLPyodbcHandler._conn sql rows mode st
     = (Raise (DriverError msg), unreachable st)
     /\ statements (calls (unreachable st)) = statements (calls st)) /\
  (read_only (self st) = true ->
   SQLPyodbcHandler.iter_execute SQLPyodbcHandler._conn sql rows mode st
   = (Return tt, refused st)).
Proof.
  split; [|split; [|split]].
  - intros Hro Hq. unfold SQLPyodbcHandler.iter_execute.
    rewrite allow_method_writable by exact Hro. rewrite Hq. reflexivity.
  - intros Hro Hq Hraise Hignore Hconn. split; [|apply connected_statements].
    unfold SQLPyodbcHandler.iter_execute.
    rewrite allow_method_writable by exact Hro.
    rewrite Hq. simpl. unfold bind. rewrite conn_connected by exact Hconn.
    destruct (String.eqb_spec mode "raise"); [contradiction|].
    destruct (String.eqb_spec mode "ignore"); [contradiction|].
    reflexivity.
  - intros Hro Hq msg Hconn. split.
    + unfold SQLPyodbcHandler.iter_execute.
      rewrite allow_method_writable by exact Hro.
      rewrite Hq. cbn [negb]. unfold bind. rewrite (conn_refused _ Hconn).
      reflexivity.
    + unfold statements, unreachable. cbn [calls]. rewrite filter_app.
      apply app_nil_r.
  - intro Hro. apply allow_method_read_only. exact Hro.
Qed.

End Validation.

(** ** Empty row sets *)

Section EmptyFrames.
Context `{Backend}.

Lemma insert_values_empty (conn : M connection) df table ident (st : state) :
  values df = [] ->
  SQLPyodbcHandler._insert_values conn df table ident st
  = (Return tt, if read_only (self st) then refused st else st).
Proof.
  intro He. unfold SQLPyodbcHandler._insert_values, SQLPyodbcHandler.allow_method.
  destruct (read_only (self st)); [reflexivity|].
  rewrite He. reflexivity.
Qed.

Lemma fill_loop_length cols : forall df,
  List.length (values (fold_left SQLPyodbcHandler.fill_column cols df))
  = List.length (values df).
Proof.
  induction cols as [|c cols IH]; intro df; simpl; [reflexivity|].
  rewrite IH. unfold SQLPyodbcHandler.fill_column.
  destruct (col_index c (columns df)) as [i|]; [|reflexivity].
  destruct (dtype_eqb (col_dtype df i) object); [|reflexivity].
  simpl. apply length_map.
Qed.

Lemma fill_text_columns_length df :
  List.length (values (SQLPyodbcHandler.fill_text_columns df))
  = List.length (values df).
Proof. apply fill_loop_length. Qed.

(** C10: the insert helper, given a frame without rows, returns without
    opening a connection or sending a statement; and so does [bulk_insert]
    under every null policy when no row is left after [remove_nulls] has
    been applied.  Only the refusal line of a read-only handle is added. *)
Theorem empty_rows_insert_nothing :
  (forall (conn : M connection) df table ident (st : state),
      values df = [] ->
      let r := SQLPyodbcHandler._insert_values conn df table ident st in
      fst r = Return tt /\
      calls (snd r) = calls st /\ db (snd r) = db st /\ txn (snd r) = txn st) /\
  (forall df table kw (st : state),
      values (if truthy (kwargs_get kw "remove_nulls" (KBool false))
              then dropna df else df) = [] ->
      let r := SQLPyodbcHandler.bulk_insert
                 (SQLPyodbcHandler._insert_values SQLPyodbcHandler._conn)
                 SQLPyodbcHandler._separate_nulls df table kw st in
      calls (snd r) = calls st /\ db (snd r) = db st /\ txn (snd r) = txn st).
Proof.
  split.
  - intros conn df table ident st He r. subst r.
    rewrite insert_values_empty by exact He.
    destruct (read_only (self st)); repeat split.
  - intros df table kw st He r. subst r.
    unfold SQLPyodbcHandler.bulk_insert, SQLPyodbcHandler.allow_method.
    destruct (read_only (self st)) eqn:Hro; [repeat split|].
    set (df' := if truthy (kwargs_get kw "remove_nulls" (KBool false))
                then dropna df else df) in *.
    destruct (kwval_eqb (kwargs_get kw "handle_nulls" KNone) (KStr "*")).
    + rewrite insert_values_empty.
      * rewrite Hro. repeat split.
      * simpl. apply length_zero_iff_nil.
        rewrite length_map, fill_text_columns_length, He. reflexivity.
    + destruct (negb (kwval_eqb (kwargs_get kw "handle_nulls" KNone) KNone)).
      * unfold bind, SQLPyodbcHandler._separate_nulls.
        destruct (kwargs_get kw "handle_nulls" KNone) as [|b|label];
          try (repeat split; fail).
        destruct (col_index label (columns df')) as [i|]; [|repeat split].
        simpl. rewrite insert_values_empty by (simpl; rewrite He; reflexivity).
        rewrite Hro. rewrite insert_values_empty by (simpl; rewrite He; reflexivity).
        rewrite Hro. repeat split.
      * rewrite insert_values_empty by exact He. rewrite Hro. repeat split.
Qed.

End EmptyFrames.

(** ** Batches: [iter_execute] *)

Section Batches.
Context `{Backend}.

(** The loop of mode ['raise'], from any state. *)
Lemma raise_loop sql rows : forall st : state,
  for_each rows (fun row => c_execute sql (Some row) ;;; ret tt) st
  = match first_failure sql rows (txn st) with
    | None =>
        (Return tt,
         mkState (self st) (db st) (apply_rows sql rows (txn st))
                 (calls st ++ one_per_row sql rows) (stdout st))
    | Some (i, msg) =>
        (Raise (DriverError msg),
         mkState (self st) (db st) (apply_rows sql (firstn i rows) (txn st))
                 (calls st ++ one_per_row sql (firstn (S i) rows)) (stdout st))
    end.
Proof.
  induction rows as [|r rest IH]; intro st.
  - simpl. rewrite app_nil_r. destruct st; reflexivity.
  - cbn [for_each first_failure apply_rows]. unfold bind at 1.
    unfold c_execute at 1. unfold bind, log_call, get_txn. cbn [txn].
    destruct (cursor_execute sql (Some r) (txn st)) as [msg|[d' rs]] eqn:Hx.
    + cbn. reflexivity.
    + cbn [set_txn ret raise fst snd self db txn calls stdout].
      rewrite IH. cbn [txn self db calls stdout].
      destruct (first_failure sql rest d') as [[i msg]|].
      * cbn [firstn apply_rows one_per_row map]. rewrite Hx.
        rewrite <- app_assoc. reflexivity.
      * cbn [one_per_row map]. rewrite <- app_assoc. reflexivity.
Qed.

(** The loop of mode ['ignore'], from a state with nothing pending. *)
Lemma ignore_loop sql rows : forall st : state,
  db st = txn st ->
  for_each rows
    (fun row =>
       try_except_else
         (c_execute sql (Some row) ;;; ret tt)
         (fun e => print PBlank ;;; print (PExn e) ;;; print (PRow row) ;;; print PBlank)
         commit) st
  = (Return tt,
     mkState (self st) (apply_rows sql rows (db st)) (apply_rows sql rows (db st))
             (calls st ++ row_by_row sql rows (db st))
             (stdout st ++ failure_report sql rows (db st))).
Proof.
  induction rows as [|r rest IH]; intros st Hd.
  - simpl. rewrite !app_nil_r. rewrite Hd at 2. destruct st; reflexivity.
  - cbn [for_each apply_rows row_by_row failure_report]. unfold bind at 1.
    unfold try_except_else, c_execute. unfold bind, log_call, get_txn. cbn [txn].
    rewrite <- Hd.
    destruct (cursor_execute sql (Some r) (db st)) as [msg|[d' rs]] eqn:Hx.
    + cbn [raise print ret fst snd self db txn calls stdout].
      rewrite IH by reflexivity. cbn [self db txn calls stdout].
      rewrite <- !app_assoc. reflexivity.
    + cbn [set_txn commit ret fst snd self db txn calls stdout].
      rewrite IH by reflexivity. cbn [self db txn calls stdout].
      rewrite <- !app_assoc. reflexivity.
Qed.

Lemma statements_row_by_row sql rows : forall d,
  statements (row_by_row sql rows d) = one_per_row sql rows.
Proof.
  induction rows as [|r rest IH]; intro d; [reflexivity|].
  cbn [row_by_row]. destruct (cursor_execute sql (Some r) d) as [msg|[d' rs]];
    unfold statements in *; cbn; rewrite IH; reflexivity.
Qed.

Lemma iter_execute_raise_run (st : state) sql rows :
  read_only (self st) = false ->
  contains_char "?" sql = true ->
  connect_error (connection_string (self st)) = None ->
  SQLPyodbcHandler.iter_execute SQLPyodbcHandler._conn sql rows "raise" st
  = match first_failure sql rows (db st) with
    | None =>
        (Return tt,
         mkState (self st) (apply_rows sql rows (db st)) (apply_rows sql rows (db st))
                 (calls (connected st) ++ one_per_row sql rows ++ [Commit])
                 (stdout st))
    | Some (i, msg) =>
        (Raise (DriverError msg),
         mkState (self st) (db st) (db st)
                 (calls (connected st) ++ one_per_row sql (firstn (S i) rows)
                    ++ [Rollback])
                 (stdout st))
    end.
Proof.
  intros Hro Hq Hconn. unfold SQLPyodbcHandler.iter_execute.
  rewrite allow_method_writable by exact Hro.
  rewrite Hq. cbn [negb]. unfold bind at 1. rewrite conn_connected by exact Hconn.
  cbn [String.eqb Ascii.eqb Bool.eqb andb]. cbn [with_].
  rewrite raise_loop. cbn [txn connected].
  destruct (first_failure sql rows (db st)) as [[i msg]|];
    cbn [fst snd commit rollback db calls stdout self txn];
    rewrite <- app_assoc; reflexivity.
Qed.

Lemma iter_execute_ignore_run (st : state) sql rows :
  read_only (self st) = false ->
  contains_char "?" sql = true ->
  connect_error (connection_string (self st)) = None ->
  SQLPyodbcHandler.iter_execute SQLPyodbcHandler._conn sql rows "ignore" st
  = (Return tt,
     mkState (self st) (apply_rows sql rows (db st)) (apply_rows sql rows (db st))
             (calls (connected st) ++ row_by_row sql rows (db st) ++ [Commit])
             (stdout st ++ failure_report sql rows (db st))).
Proof.
  intros Hro Hq Hconn. unfold SQLPyodbcHandler.iter_execute.
  rewrite allow_method_writable by exact Hro.
  rewrite Hq. cbn [negb]. unfold bind at 1. rewrite conn_connected by exact Hconn.
  cbn [String.eqb Ascii.eqb Bool.eqb andb]. cbn [with_].
  rewrite ignore_loop by reflexivity.
  cbn [fst snd commit db calls stdout self txn connected].
  rewrite <- app_assoc. reflexivity.
Qed.

(** C2: on a writable handle, with a parameterized statement and an open
    connection.  Mode ['raise']: the statement is sent once per row, in
    order; if the driver accepts every row the batch is committed as a
    whole; at the first row it refuses the call raises, no later row is
    sent, the transaction is rolled back and the database is what it was
    before the call.  Mode ['ignore']: every row is sent once, each accepted
    row is committed at once, each refused row is reported on [stdout], the
    call returns [None] and the database holds all accepted rows. *)
Theorem iter_execute_modes (st : state) (sql : string) (rows : list row) :
  read_only (self st) = false ->
  contains_char "?" sql = true ->
  connect_error (connection_string (self st)) = None ->
  (let r := SQLPyodbcHandler.iter_execute SQLPyodbcHandler._conn sql rows "raise" st in
   match first_failure sql rows (db st) with
   | None =>
       fst r = Return tt /\
       db (snd r) = apply_rows sql rows (db st) /\
       calls (snd r) = calls (connected st) ++ one_per_row sql rows ++ [Commit]
   | Some (i, msg) =>
       fst r = Raise (DriverError msg) /\
       db (snd r) = db st /\
       calls (snd r)
       = calls (connected st) ++ one_per_row sql (firstn (S i) rows) ++ [Rollback]
   end) /\
  (let r := SQLPyodbcHandler.iter_execute SQLPyodbcHandler._conn sql rows "ignore" st in
   fst r = Return tt /\
   db (snd r) = apply_rows sql rows (db st) /\
   calls (snd r) = calls (connected st) ++ row_by_row sql rows (db st) ++ [Commit] /\
   statements (calls (snd r)) = statements (calls st) ++ one_per_row sql rows /\
   stdout (snd r) = stdout st ++ failure_report sql rows (db st)).
Proof.
  intros Hro Hq Hconn. split.
  - intro r. subst r. rewrite iter_execute_raise_run by assumption.
    destruct (first_failure sql rows (db st)) as [[i msg]|]; repeat split.
  - intro r. subst r. rewrite iter_execute_ignore_run by assumption.
    cbn [fst snd db calls stdout]. repeat split.
    unfold statements. rewrite !filter_app. fold (statements (calls (connected st))).
    rewrite connected_statements.
    fold (statements (row_by_row sql rows (db st))). rewrite statements_row_by_row.
    cbn. rewrite app_nil_r. reflexivity.
Qed.

End Batches.

(** ** Reshaping frames *)

Section Cells.
Variable A : Type.

Lemma nth_error_set_nth (f : A -> A) : forall (l : list A) i j,
  nth_error (set_nth i f l) j
  = if Nat.eqb i j then option_map f (nth_error l j) else nth_error l j.
Proof.
  induction l as [|x l IH]; intros i j.
  - destruct j; simpl; destruct (Nat.eqb i _); reflexivity.
  - destruct i as [|i]; destruct j as [|j]; simpl; try reflexivity.
    apply IH.
Qed.

Lemma length_set_nth (f : A -> A) : forall (l : list A) i,
  List.length (set_nth i f l) = List.length l.
Proof.
  induction l as [|x l IH]; intros [|i]; simpl; auto.
Qed.

Lemma set_nth_twice (f g : A -> A) : forall (l : list A) i,
  set_nth i g (set_nth i f l) = set_nth i (fun x => g (f x)) l.
Proof.
  induction l as [|x l IH]; intros [|i]; simpl; try reflexivity.
  rewrite IH. reflexivity.
Qed.

Lemma nth_set_nth_same (f : A -> A) (d : A) : forall (l : list A) i,
  i < List.length l -> nth i (set_nth i f l) d = f (nth i l d).
Proof.
  induction l as [|x l IH]; intros [|i] Hi; simpl in *; try lia.
  - reflexivity.
  - apply IH. lia.
Qed.

End Cells.

Lemma col_index_bound c : forall cs i,
  col_index c cs = Some i -> i < List.length cs.
Proof.
  induction cs as [|x cs IH]; intros i Hi; simpl in *; [discriminate|].
  destruct (String.eqb c x).
  - injection Hi as <-. lia.
  - destruct (col_index c cs) as [k|]; [|discriminate].
    injection Hi as <-. specialize (IH k eq_refl). lia.
Qed.

Lemma col_index_nth c : forall cs i,
  col_index c cs = Some i -> nth_error cs i = Some c.
Proof.
  induction cs as [|x cs IH]; intros i Hi; simpl in *; [discriminate|].
  destruct (String.eqb_spec c x) as [->|Hne].
  - injection Hi as <-. reflexivity.
  - destruct (col_index c cs) as [k|]; [|discriminate].
    injection Hi as <-. simpl. apply IH. reflexivity.
Qed.

(** With distinct labels, a label is found where it stands. *)
Lemma col_index_NoDup : forall cs j c,
  NoDup cs -> nth_error cs j = Some c -> col_index c cs = Some j.
Proof.
  induction cs as [|x cs IH]; intros j c Hnd Hj.
  - destruct j; discriminate.
  - inversion Hnd as [|? ? Hnotin Hnd']; subst. destruct j as [|j]; simpl in *.
    + injection Hj as ->. rewrite String.eqb_refl. reflexivity.
    + destruct (String.eqb_spec c x) as [->|Hne].
      * exfalso. apply Hnotin. eapply nth_error_In. exact Hj.
      * rewrite (IH j c Hnd' Hj). reflexivity.
Qed.

(** Partition by the missing values of one column. *)
Lemma separate_is_partition (i : nat) (rows : list row) :
  Permutation (filter (fun r => notnull (cell i r)) rows
               ++ filter (fun r => isna (cell i r)) rows) rows.
Proof.
  induction rows as [|r rows IH]; simpl; [constructor|].
  unfold notnull at 1. destruct (isna (cell i r)); simpl.
  - apply Permutation_sym. apply Permutation_cons_app.
    apply Permutation_sym. exact IH.
  - constructor. exact IH.
Qed.

(** *** The loop over the text columns *)

Lemma fill_text_idem x : fill_text (fill_text x) = fill_text x.
Proof. destruct x; reflexivity. Qed.

Lemma fill_column_shape df c :
  columns (SQLPyodbcHandler.fill_column df c) = columns df /\
  dtypes (SQLPyodbcHandler.fill_column df c) = dtypes df /\
  values (SQLPyodbcHandler.fill_column df c)
  = map (fun r => row_step (columns df) (dtypes df) r c) (values df).
Proof.
  unfold SQLPyodbcHandler.fill_column, row_step, col_dtype.
  destruct (col_index c (columns df)) as [i|].
  - destruct (dtype_eqb _ _); repeat split. symmetry. apply map_id.
  - repeat split. symmetry. apply map_id.
Qed.

Lemma fill_loop_shape cols : forall df,
  columns (fold_left SQLPyodbcHandler.fill_column cols df) = columns df /\
  dtypes (fold_left SQLPyodbcHandler.fill_column cols df) = dtypes df /\
  values (fold_left SQLPyodbcHandler.fill_column cols df)
  = map (fun r => fold_left (row_step (columns df) (dtypes df)) cols r) (values df).
Proof.
  induction cols as [|c cols IH]; intro df; cbn [fold_left].
  - repeat split. symmetry. apply map_id.
  - destruct (fill_column_shape df c) as (Hc & Ht & Hv).
    destruct (IH (SQLPyodbcHandler.fill_column df c)) as (IHc & IHt & IHv).
    rewrite IHc, IHt, IHv, Hc, Ht, Hv, map_map. repeat split.
Qed.

Lemma row_fold_nth cs ts cols : forall r j,
  nth_error (fold_left (row_step cs ts) cols r) j
  = option_map (fun x => if rewritten cs ts cols j then fill_text x else x)
               (nth_error r j).
Proof.
  induction cols as [|c cols IH]; intros r j; cbn [fold_left].
  - unfold rewritten. simpl. destruct (nth_error r j); reflexivity.
  - rewrite IH. unfold rewritten at 2. cbn [existsb]. fold (rewritten cs ts cols j).
    unfold row_step. destruct (col_index c cs) as [i|]; [|reflexivity].
    destruct (dtype_eqb (nth i ts object) object).
    + rewrite nth_error_set_nth, andb_true_r.
      destruct (Nat.eqb i j); cbn [orb]; [|reflexivity].
      destruct (nth_error r j) as [x|]; cbn [option_map]; [|reflexivity].
      destruct (rewritten cs ts cols j); [rewrite fill_text_idem|]; reflexivity.
    + rewrite andb_false_r. reflexivity.
Qed.

(** With distinct labels the loop over all labels reaches every position. *)
Lemma rewritten_all cs ts j :
  NoDup cs -> j < List.length cs ->
  rewritten cs ts cs j = dtype_eqb (nth j ts object) object.
Proof.
  intros Hnd Hj. unfold rewritten.
  destruct (dtype_eqb (nth j ts object) object) eqn:Ht.
  - apply existsb_exists.
    destruct (nth_error cs j) as [c|] eqn:Hc.
    + exists c. split; [eapply nth_error_In; exact Hc|].
      rewrite (col_index_NoDup _ Hnd Hc), Nat.eqb_refl, Ht. reflexivity.
    + apply nth_error_None in Hc. lia.
  - apply not_true_is_false. intro Hex. apply existsb_exists in Hex.
    destruct Hex as (c & _ & Hc). destruct (col_index c cs) as [i|]; [|discriminate].
    apply andb_true_iff in Hc. destruct Hc as [Hij Hi].
    apply Nat.eqb_eq in Hij. subst i. congruence.
Qed.

Lemma nth_error_star_row : forall r ts j,
  nth_error (star_row ts r) j
  = option_map (star_cell (nth j ts object)) (nth_error r j).
Proof.
  induction r as [|x r IH]; intros ts j.
  - destruct j; reflexivity.
  - destruct ts as [|t ts]; destruct j as [|j]; cbn [star_row nth_error nth];
      try reflexivity.
    + rewrite IH. destruct j; reflexivity.
    + apply IH.
Qed.

(** The frame the ['*'] branch hands to the insert helper. *)
Lemma star_frame_values df :
  wf_frame df ->
  values (astype_object_where_notnull (SQLPyodbcHandler.fill_text_columns df))
  = map (star_row (dtypes df)) (values df).
Proof.
  intros (Hnd & Hlen & Hrows).
  unfold SQLPyodbcHandler.fill_text_columns, astype_object_where_notnull. cbn [values].
  destruct (fill_loop_shape (columns df) df) as (_ & _ & Hv).
  rewrite Hv, map_map. apply map_ext_in. intros r Hr.
  rewrite Forall_forall in Hrows. specialize (Hrows r Hr).
  apply nth_error_ext. intro j.
  rewrite nth_error_map, row_fold_nth, nth_error_star_row.
  destruct (nth_error r j) as [x|] eqn:Hx; [|reflexivity].
  assert (Hj : j < List.length (columns df)).
  { rewrite <- Hrows. apply nth_error_Some. congruence. }
  cbn [option_map]. rewrite (rewritten_all _ Hnd Hj). f_equal.
  unfold star_cell, fill_text, notnull.
  destruct (dtype_eqb (nth j (dtypes df) object) object); destruct x; reflexivity.
Qed.

(** ** Insert passes *)

Section Passes.
Context `{Backend}.

Lemma insert_passes_app l1 l2 :
  insert_passes (l1 ++ l2) = insert_passes l1 ++ insert_passes l2.
Proof. apply flat_map_app. Qed.

(** One call of the insert helper on a writable handle, in full. *)
Lemma insert_values_run df table ident (st : state) :
  read_only (self st) = false ->
  SQLPyodbcHandler._insert_values SQLPyodbcHandler._conn df table ident st
  = let sql := SQLPyodbcHandler.insert_statement (columns df) table ident in
    let cs := connection_string (self st) in
    if Nat.ltb 0 (List.length (values df)) then
      match connect_error cs with
      | Some msg =>
          (Raise (DriverError msg),
           mkState (self st) (db st) (txn st) (calls st ++ [Connect cs]) (stdout st))
      | None =>
          match cursor_executemany sql (values df) (db st) with
          | inl msg =>
              (Raise (DriverError msg),
               mkState (self st) (db st) (db st)
                       (calls st ++ [Connect cs; CursorExecuteMany sql (values df);
                                     Rollback])
                       (stdout st))
          | inr d' =>
              (Return tt,
               mkState (self st) d' d'
                       (calls st ++ [Connect cs; CursorExecuteMany sql (values df);
                                     Commit; Commit])
                       (stdout st))
          end
      end
    else (Return tt, st).
Proof.
  intro Hro. unfold SQLPyodbcHandler._insert_values.
  rewrite allow_method_writable by exact Hro. cbv zeta.
  destruct (Nat.ltb 0 (List.length (values df))); [|reflexivity].
  unfold bind at 1.
  destruct (connect_error (connection_string (self st))) as [msg|] eqn:Hc.
  - rewrite (conn_refused _ Hc). reflexivity.
  - rewrite (conn_connected _ Hc). cbn [with_].
    unfold c_executemany, bind, log_call, get_txn, connected. cbn [txn calls].
    destruct (cursor_executemany _ (values df) (db st)) as [msg|d'];
      cbn; rewrite <- !app_assoc; reflexivity.
Qed.

(** What one call of the insert helper adds to the passes. *)
Lemma insert_values_passes df table ident (st : state) :
  read_only (self st) = false ->
  let r := SQLPyodbcHandler._insert_values SQLPyodbcHandler._conn df table ident st in
  self (snd r) = self st /\
  exists issued : bool,
    insert_passes (calls (snd r))
    = insert_passes (calls st) ++ (if issued then [values df] else []) /\
    (issued = true -> Nat.ltb 0 (List.length (values df)) = true) /\
    (fst r = Return tt -> issued = Nat.ltb 0 (List.length (values df))).
Proof.
  intros Hro r. subst r. rewrite insert_values_run by exact Hro. cbv zeta.
  destruct (Nat.ltb 0 (List.length (values df))) eqn:Hlen.
  - destruct (connect_error (connection_string (self st))) as [msg|].
    + split; [reflexivity|]. exists false. cbn [snd fst calls].
      rewrite insert_passes_app. repeat split; try discriminate.
    + destruct (cursor_executemany _ (values df) (db st)) as [msg|d'];
        (split; [reflexivity|]); exists true; cbn [snd fst calls];
        rewrite insert_passes_app; repeat split.
  - split; [reflexivity|]. exists false. cbn [snd fst].
    rewrite app_nil_r. repeat split. discriminate.
Qed.

(** When the connection opens and the driver takes every batch, the helper
    returns. *)
Lemma insert_values_returns df table ident (st : state) :
  read_only (self st) = false ->
  connect_error (connection_string (self st)) = None ->
  (forall sql rows d, exists d', cursor_executemany sql rows d = inr d') ->
  fst (SQLPyodbcHandler._insert_values SQLPyodbcHandler._conn df table ident st)
  = Return tt.
Proof.
  intros Hro Hc Hok. rewrite insert_values_run by exact Hro. cbv zeta.
  destruct (Nat.ltb 0 (List.length (values df))); [|reflexivity].
  rewrite Hc.
  destruct (Hok (SQLPyodbcHandler.insert_statement (columns df) table ident)
                (values df) (db st)) as [d' ->].
  reflexivity.
Qed.

End Passes.

(** ** Null policies of [bulk_insert] *)

Section NullPolicies.
Context `{Backend}.

Lemma separate_nulls_run df column i (st : state) :
  col_index column (columns df) = Some i ->
  SQLPyodbcHandler._separate_nulls df (KStr column) st
  = (Return
       (mkFrame (columns df) (dtypes df)
                (filter (fun r => notnull (cell i r)) (values df)),
        mkFrame (columns df)
                (set_nth i (fun _ => object) (set_nth i (fun _ => object) (dtypes df)))
                (map (set_nth i (fun _ => VNone))
                     (filter (fun r => isna (cell i r)) (values df)))),
     st).
Proof.
  intro Hi. unfold SQLPyodbcHandler._separate_nulls. rewrite Hi.
  unfold ret, assign_none_col, astype_str_col, loc_rows. cbn [columns dtypes values].
  rewrite map_map.
  rewrite (map_ext _ (set_nth i (fun _ => VNone)))
    by (intro r; apply set_nth_twice).
  reflexivity.
Qed.

(** C3: with a column label as the null policy, on a writable handle, the
    rows are split into those with a value in that column and those
    without, the latter with the column set to [None]; the two parts hold
    exactly the rows of the input; the parts go to the driver in at most two
    passes, one for each part that is not empty, the part with values
    first; and when the connection opens and the driver takes every batch
    the call returns. *)
Theorem bulk_insert_separates_named_column
        (st : state) (df : DataFrame) (table : string) (kw : kwargs)
        (column : string) (i : nat) :
  read_only (self st) = false ->
  wf_frame df ->
  truthy (kwargs_get kw "remove_nulls" (KBool false)) = false ->
  kwargs_get kw "handle_nulls" KNone = KStr column ->
  column <> "*" ->
  col_index column (columns df) = Some i ->
  let present := filter (fun r => notnull (cell i r)) (values df) in
  let missing := filter (fun r => isna (cell i r)) (values df) in
  let nulled : list row := map (set_nth i (fun _ => VNone)) missing in
  let r := SQLPyodbcHandler.bulk_insert
             (SQLPyodbcHandler._insert_values SQLPyodbcHandler._conn)
             SQLPyodbcHandler._separate_nulls df table kw st in
  (exists vals nulls,
      SQLPyodbcHandler._separate_nulls df (KStr column) st = (Return (vals, nulls), st)
      /\ values vals = present /\ values nulls = nulled) /\
  Permutation (present ++ missing) (values df) /\
  Forall (fun r => cell i r = VNone) nulled /\
  (exists passes rest,
      insert_passes (calls (snd r)) = insert_passes (calls st) ++ passes /\
      nonempty_parts [present; nulled] = passes ++ rest /\
      List.length passes <= 2 /\
      (fst r = Return tt -> rest = [])) /\
  (connect_error (connection_string (self st)) = None ->
   (forall sql rows d, exists d', cursor_executemany sql rows d = inr d') ->
   fst r = Return tt).
Proof.
  intros Hro (Hnd & Hlen & Hrows) Hrm Hhn Hstar Hi present missing nulled r.
  assert (Hsep := @separate_nulls_run df column i st Hi).
  fold present missing nulled in Hsep.
  set (vals := mkFrame (columns df) (dtypes df) present) in Hsep.
  set (nulls := mkFrame (columns df) _ nulled) in Hsep.
  set (ident := kwargs_get kw "identity_insert_on" (KBool false)).
  assert (Hrun : r = (SQLPyodbcHandler._insert_values SQLPyodbcHandler._conn
                        vals table ident ;;;
                      SQLPyodbcHandler._insert_values SQLPyodbcHandler._conn
                        nulls table ident) st).
  { subst r. unfold SQLPyodbcHandler.bulk_insert.
    rewrite allow_method_writable by exact Hro. cbv zeta.
    rewrite Hrm, Hhn. cbn [kwval_eqb].
    destruct (String.eqb_spec column "*") as [Heq|_]; [contradiction|].
    cbn [negb]. unfold bind at 1. rewrite Hsep. reflexivity. }
  clearbody r. subst r. unfold bind.
  pose proof (insert_values_passes vals table ident st Hro) as P1.
  cbv zeta in P1. destruct P1 as (Hself & issued1 & Hp1 & Hi1 & Hr1).
  split; [|split; [|split; [|split]]].
  - eexists _, _. split; [exact Hsep|]. split; reflexivity.
  - apply separate_is_partition.
  - subst nulled missing. apply Forall_map. apply Forall_forall. intros x Hx.
    apply filter_In in Hx. destruct Hx as [Hx _].
    rewrite Forall_forall in Hrows. specialize (Hrows x Hx).
    unfold cell. apply nth_set_nth_same.
    rewrite Hrows. eapply col_index_bound. exact Hi.
  - unfold nonempty_parts. cbn [filter].
    destruct (SQLPyodbcHandler._insert_values SQLPyodbcHandler._conn vals table ident st)
      as [[[]|e] st1]; cbn [fst snd] in *.
    + specialize (Hr1 eq_refl).
      assert (Hro1 : read_only (self st1) = false) by (rewrite Hself; exact Hro).
      pose proof (insert_values_passes nulls table ident st1 Hro1) as P2.
      cbv zeta in P2. destruct P2 as (_ & issued2 & Hp2 & Hi2 & Hr2).
      subst vals nulls. cbn [values] in Hp1, Hp2, Hi1, Hi2, Hr1, Hr2.
      exists ((if issued1 then [present] else []) ++ (if issued2 then [nulled] else [])).
      exists (if issued2 then []
              else if Nat.ltb 0 (List.length nulled) then [nulled] else []).
      rewrite Hp2, Hp1, <- app_assoc, <- Hr1.
      split; [reflexivity|]. split; [|split].
      * destruct issued1; destruct issued2;
          try (rewrite (Hi2 eq_refl));
          destruct (Nat.ltb 0 (List.length nulled)); reflexivity.
      * destruct issued1; destruct issued2; cbn; lia.
      * intro Hret. specialize (Hr2 Hret).
        destruct issued2; [reflexivity|]. unfold row in *. rewrite <- Hr2.
        reflexivity.
    + subst vals nulls. cbn [values] in Hp1, Hi1.
      exists (if issued1 then [present] else []).
      exists ((if issued1 then [] else
                 if Nat.ltb 0 (List.length present) then [present] else [])
              ++ (if Nat.ltb 0 (List.length nulled) then [nulled] else [])).
      split; [exact Hp1|]. split; [|split].
      * destruct issued1; [rewrite (Hi1 eq_refl)|];
          destruct (Nat.ltb 0 (List.length present));
          destruct (Nat.ltb 0 (List.length nulled)); reflexivity.
      * destruct issued1; cbn; lia.
      * discriminate.
  - intros Hc Hok.
    pose proof (insert_values_returns vals table ident st Hro Hc Hok) as R1.
    destruct (SQLPyodbcHandler._insert_values SQLPyodbcHandler._conn vals table ident st)
      as [[u|e] st1]; cbn [fst snd] in *; [|discriminate].
    apply insert_values_returns; rewrite ?Hself; assumption.
Qed.

(** A frame handed once to the insert helper reaches the driver in one
    pass, or in none when it has no rows. *)
Lemma single_pass f table ident (st : state) :
  read_only (self st) = false ->
  let r := SQLPyodbcHandler._insert_values SQLPyodbcHandler._conn f table ident st in
  exists passes,
    insert_passes (calls (snd r)) = insert_passes (calls st) ++ passes /\
    List.length passes <= 1 /\
    (forall p, In p passes -> p = values f) /\
    (fst r = Return tt -> List.concat passes = values f).
Proof.
  intros Hro r.
  destruct (insert_values_passes f table ident st Hro)
    as (_ & issued & Hp & Hi & Hr).
  fold r in Hp, Hr.
  exists (if issued then [values f] else []). split; [exact Hp|].
  split; [destruct issued; simpl; lia|]. split.
  - intros p Hin. destruct issued; simpl in Hin; [|contradiction].
    destruct Hin as [<-|[]]. reflexivity.
  - intro Hret. specialize (Hr Hret). destruct issued.
    + simpl. apply app_nil_r.
    + symmetry in Hr. apply Nat.ltb_ge in Hr.
      destruct (values f); [reflexivity|simpl in Hr; lia].
Qed.

Lemma kwargs_get_cons_other kw k v key default :
  String.eqb k key = false ->
  kwargs_get ((k, v) :: kw) key default = kwargs_get kw key default.
Proof. intro Hk. simpl. rewrite Hk. reflexivity. Qed.

(** C4: on a writable handle and a well-formed frame.  With
    [handle_nulls='*'] every missing cell of an object column becomes the
    empty string, every other missing cell becomes [None], every other
    cell is kept, and the rewritten rows, all of them, go to the driver in
    one pass.  With [remove_nulls=True] the call is the call on the frame
    without the rows that hold a missing cell, under whatever other
    policy; with no other policy exactly those rows go to the driver in one
    pass.  When the connection opens and the driver takes every batch the
    calls return. *)
Theorem bulk_insert_star_and_dropna
        (st : state) (df : DataFrame) (table : string) (kw : kwargs) :
  read_only (self st) = false ->
  wf_frame df ->
  let run := SQLPyodbcHandler.bulk_insert
               (SQLPyodbcHandler._insert_values SQLPyodbcHandler._conn)
               SQLPyodbcHandler._separate_nulls in
  let returns (r : outcome unit * state) :=
    connect_error (connection_string (self st)) = None ->
    (forall sql rows d, exists d', cursor_executemany sql rows d = inr d') ->
    fst r = Return tt in
  (truthy (kwargs_get kw "remove_nulls" (KBool false)) = false ->
   kwargs_get kw "handle_nulls" KNone = KStr "*" ->
   let cleaned := map (star_row (dtypes df)) (values df) in
   let r := run df table kw st in
   (exists passes,
       insert_passes (calls (snd r)) = insert_passes (calls st) ++ passes /\
       List.length passes <= 1 /\
       (forall p, In p passes -> p = cleaned) /\
       (fst r = Return tt -> List.concat passes = cleaned)) /\
   returns r) /\
  (forall t x,
      (isna x = false -> star_cell t x = x) /\
      (isna x = true -> t = object -> star_cell t x = VStr "") /\
      (isna x = true -> t <> object -> star_cell t x = VNone)) /\
  (truthy (kwargs_get kw "remove_nulls" (KBool false)) = true ->
   run df table kw st = run (dropna df) table (("remove_nulls", KBool false) :: kw) st) /\
  (truthy (kwargs_get kw "remove_nulls" (KBool false)) = true ->
   kwargs_get kw "handle_nulls" KNone = KNone ->
   let kept := filter (forallb notnull) (values df) in
   let r := run df table kw st in
   (exists passes,
       insert_passes (calls (snd r)) = insert_passes (calls st) ++ passes /\
       List.length passes <= 1 /\
       (forall p, In p passes -> p = kept) /\
       (fst r = Return tt -> List.concat passes = kept)) /\
   returns r).
Proof.
  intros Hro Hwf run returns. split; [|split; [|split]].
  - intros Hrm Hhn cleaned r.
    assert (Hrun : r = SQLPyodbcHandler._insert_values SQLPyodbcHandler._conn
                         (astype_object_where_notnull
                            (SQLPyodbcHandler.fill_text_columns df))
                         table (kwargs_get kw "identity_insert_on" (KBool false)) st).
    { subst r run. unfold SQLPyodbcHandler.bulk_insert.
      rewrite allow_method_writable by exact Hro. cbv zeta.
      rewrite Hrm, Hhn. reflexivity. }
    clearbody r. subst r. subst cleaned. rewrite <- (star_frame_values Hwf).
    split; [apply single_pass; exact Hro|].
    intros Hc Hok. apply insert_values_returns; assumption.
  - intros t x. unfold star_cell. repeat split.
    + intros ->. reflexivity.
    + intros -> ->. reflexivity.
    + intros -> Ht. destruct t; try reflexivity. contradiction.
  - intro Hrm. subst run. unfold SQLPyodbcHandler.bulk_insert.
    rewrite !allow_method_writable by exact Hro. cbv zeta.
    rewrite !kwargs_get_cons_other by reflexivity.
    cbn [kwargs_get String.eqb Ascii.eqb Bool.eqb andb truthy].
    rewrite Hrm. reflexivity.
  - intros Hrm Hhn kept r.
    assert (Hrun : r = SQLPyodbcHandler._insert_values SQLPyodbcHandler._conn
                         (dropna df)
                         table (kwargs_get kw "identity_insert_on" (KBool false)) st).
    { subst r run. unfold SQLPyodbcHandler.bulk_insert.
      rewrite allow_method_writable by exact Hro. cbv zeta.
      rewrite Hrm, Hhn. reflexivity. }
    clearbody r. subst r. subst kept.
    change (filter (forallb notnull) (values df)) with (values (dropna df)).
    split; [apply single_pass; exact Hro|].
    intros Hc Hok. apply insert_values_returns; assumption.
Qed.

End NullPolicies.

(** ** The alternate handler *)

Section Alternate.
Context `{Backend}.

Lemma written_tables_app l1 l2 :
  written_tables (l1 ++ l2) = written_tables l1 ++ written_tables l2.
Proof. apply flat_map_app. Qed.

(** One call of the overriding insert helper, in full: no guard, no test
    for rows, no use of [insert_identity_on]. *)
Lemma alchemy_insert_values_run df table ident (st : state) :
  SQLAlchemyHandler._insert_values df table ident st
  = match to_sql (engine_url st) table "dbo" df (db st) with
    | inl msg =>
        (Raise (DriverError msg),
         mkState (self st) (db st) (txn st)
                 (calls st ++ [CreateEngine (engine_url st);
                               ToSql table "dbo" df "append" false])
                 (stdout st))
    | inr d' =>
        (Return tt,
         mkState (self st) d' (txn st)
                 (calls st ++ [CreateEngine (engine_url st);
                               ToSql table "dbo" df "append" false])
                 (stdout st))
    end.
Proof.
  unfold SQLAlchemyHandler._insert_values, SQLAlchemyHandler._conn,
    SQLAlchemyHandler._sqlalchemy_conn, engine_url, bind, get_self, log_call, ret.
  cbn. destruct (to_sql _ table "dbo" df (db st)) as [msg|d'];
    rewrite <- app_assoc; reflexivity.
Qed.

Lemma alchemy_insert_ok df table ident (st : state) :
  (forall url t s f d, exists d', to_sql url t s f d = inr d') ->
  exists st',
    SQLAlchemyHandler._insert_values df table ident st = (Return tt, st') /\
    self st' = self st /\
    written_tables (calls st')
    = written_tables (calls st) ++ [(table, "dbo", df, "append", false)].
Proof.
  intro Hok. rewrite alchemy_insert_values_run.
  destruct (Hok (engine_url st) table "dbo" df (db st)) as [d' ->].
  eexists. split; [reflexivity|]. split; [reflexivity|].
  cbn [calls]. rewrite written_tables_app. reflexivity.
Qed.

Lemma pyodbc_insert_ok df table ident (st : state) :
  read_only (self st) = false ->
  connect_error (connection_string (self st)) = None ->
  (forall sql rows d, exists d', cursor_executemany sql rows d = inr d') ->
  exists st',
    SQLPyodbcHandler._insert_values SQLPyodbcHandler._conn df table ident st
    = (Return tt, st') /\
    self st' = self st /\
    insert_passes (calls st')
    = insert_passes (calls st) ++ nonempty_parts [values df].
Proof.
  intros Hro Hc Hok.
  pose proof (insert_values_returns df table ident st Hro Hc Hok) as Hret.
  destruct (insert_values_passes df table ident st Hro)
    as (Hself & issued & Hp & _ & Hr).
  destruct (SQLPyodbcHandler._insert_values SQLPyodbcHandler._conn df table ident st)
    as [[[]|e] st'] eqn:E; cbn [fst snd] in *; [|discriminate].
  exists st'. split; [reflexivity|]. split; [exact Hself|].
  rewrite Hp, (Hr eq_refl). unfold nonempty_parts. cbn [filter].
  destruct (Nat.ltb 0 (List.length (values df))); reflexivity.
Qed.

Lemma separate_nulls_cases df column (st : state) :
  (exists k, SQLPyodbcHandler._separate_nulls df column st = (Raise (KeyError k), st)) \/
  (exists vals nulls,
      SQLPyodbcHandler._separate_nulls df column st = (Return (vals, nulls), st)).
Proof.
  unfold SQLPyodbcHandler._separate_nulls.
  destruct column as [|b|label]; try (left; eexists; reflexivity).
  destruct (col_index label (columns df)).
  - right. eexists _, _. reflexivity.
  - left. eexists. reflexivity.
Qed.

Lemma nonempty_parts_two (a b : list row) :
  nonempty_parts [a; b] = nonempty_parts [a] ++ nonempty_parts [b].
Proof.
  unfold nonempty_parts. cbn [filter].
  destruct (Nat.ltb 0 (List.length a)); reflexivity.
Qed.

(** C6, as the code has it: of the four operations the alternate handler
    keeps [bulk_insert] only.  Its [query], [execute] and [iter_execute]
    take no argument: called bare they return [None] and do nothing, called
    with any argument they raise [TypeError] and do nothing.  Its
    [bulk_insert] has the guard of the base handler, and every insert pass
    is one [to_sql] call on a fresh engine, with schema [dbo], appending,
    without the index, whatever the frame and whatever
    [identity_insert_on]; when neither driver refuses anything, both
    handlers end alike and the row sets the base handler sends are those
    the alternate handler writes, the empty ones left out. *)
Theorem alternate_handler_keeps_bulk_insert_only (st : state) :
  (SQLAlchemyHandler.query 0 st = (Return tt, st) /\
   SQLAlchemyHandler.execute 0 st = (Return tt, st) /\
   SQLAlchemyHandler.iter_execute 0 st = (Return tt, st)) /\
  (forall n,
      (exists msg, SQLAlchemyHandler.query (S n) st = (Raise (TypeError msg), st)) /\
      (exists msg, SQLAlchemyHandler.execute (S n) st = (Raise (TypeError msg), st)) /\
      (exists msg, SQLAlchemyHandler.iter_execute (S n) st
                   = (Raise (TypeError msg), st))) /\
  (read_only (self st) = true ->
   forall df table kw,
     SQLAlchemyHandler.bulk_insert df table kw st = (Return tt, refused st)) /\
  (forall df table ident,
      calls (snd (SQLAlchemyHandler._insert_values df table ident st))
      = calls st ++ [CreateEngine (engine_url st); ToSql table "dbo" df "append" false]) /\
  (read_only (self st) = false ->
   connect_error (connection_string (self st)) = None ->
   (forall sql rows d, exists d', cursor_executemany sql rows d = inr d') ->
   (forall url t s f d, exists d', to_sql url t s f d = inr d') ->
   forall df table kw,
     let rb := SQLPyodbcHandler.bulk_insert
                 (SQLPyodbcHandler._insert_values SQLPyodbcHandler._conn)
                 SQLPyodbcHandler._separate_nulls df table kw st in
     let ra := SQLAlchemyHandler.bulk_insert df table kw st in
     fst ra = fst rb /\
     exists frames,
       written_tables (calls (snd ra))
       = written_tables (calls st)
           ++ map (fun f => (table, "dbo", f, "append", false)) frames /\
       insert_passes (calls (snd rb))
       = insert_passes (calls st) ++ nonempty_parts (map values frames)).
Proof.
  split; [repeat split|]. split; [|split; [|split]].
  - intro n. repeat split; eexists; reflexivity.
  - intros Hro df table kw. apply allow_method_read_only. exact Hro.
  - intros df table ident. rewrite alchemy_insert_values_run.
    destruct (to_sql _ table "dbo" df (db st)); reflexivity.
  - intros Hro Hc Hmany Hsql df table kw rb ra. subst rb ra.
    unfold SQLAlchemyHandler.bulk_insert, SQLPyodbcHandler.bulk_insert.
    rewrite !allow_method_writable by exact Hro. cbv zeta.
    set (df' := if truthy (kwargs_get kw "remove_nulls" (KBool false))
                then dropna df else df).
    set (ident := kwargs_get kw "identity_insert_on" (KBool false)).
    destruct (kwval_eqb (kwargs_get kw "handle_nulls" KNone) (KStr "*")).
    { set (f := astype_object_where_notnull (SQLPyodbcHandler.fill_text_columns df')).
      destruct (alchemy_insert_ok f table ident st Hsql) as (sa & -> & _ & Ha).
      destruct (pyodbc_insert_ok f table ident st Hro Hc Hmany) as (sb & -> & _ & Hb).
      split; [reflexivity|]. exists [f]. split; assumption. }
    destruct (negb (kwval_eqb (kwargs_get kw "handle_nulls" KNone) KNone)).
    2:{ destruct (alchemy_insert_ok df' table ident st Hsql) as (sa & -> & _ & Ha).
        destruct (pyodbc_insert_ok df' table ident st Hro Hc Hmany)
          as (sb & -> & _ & Hb).
        split; [reflexivity|]. exists [df']. split; assumption. }
    unfold SQLAlchemyHandler._separate_nulls, bind.
    destruct (separate_nulls_cases df' (kwargs_get kw "handle_nulls" KNone) st)
      as [(k & ->)|(vals & nulls & ->)].
    { split; [reflexivity|]. exists []. cbn [fst snd map].
      unfold nonempty_parts. cbn [filter]. rewrite !app_nil_r. split; reflexivity. }
    destruct (alchemy_insert_ok vals table ident st Hsql) as (sa & -> & Hsa & Ha).
    destruct (pyodbc_insert_ok vals table ident st Hro Hc Hmany)
      as (sb & -> & Hsb & Hb).
    destruct (alchemy_insert_ok nulls table ident sa Hsql) as (sa' & -> & _ & Ha').
    assert (Hro' : read_only (self sb) = false) by (rewrite Hsb; exact Hro).
    assert (Hc' : connect_error (connection_string (self sb)) = None)
      by (rewrite Hsb; exact Hc).
    destruct (pyodbc_insert_ok nulls table ident sb Hro' Hc' Hmany)
      as (sb' & -> & _ & Hb').
    split; [reflexivity|]. exists [vals; nulls]. cbn [fst snd map].
    rewrite Ha', Ha, Hb', Hb, nonempty_parts_two, <- !app_assoc.
    split; reflexivity.
Qed.

End Alternate.

(** * Concrete runs on the journal driver *)

Lemma read_only_suppresses_mutation_witness :
  read_only (self Journal.prod) = true /\
  SQLPyodbcHandler.execute SQLPyodbcHandler._conn "DELETE FROM USERS;" [] Journal.prod
  = (Return tt, refused Journal.prod) /\
  SQLPyodbcHandler.iter_execute SQLPyodbcHandler._conn Journal.users_sql
    (values Journal.users) "raise" Journal.prod
  = (Return tt, refused Journal.prod) /\
  SQLPyodbcHandler.bulk_insert
    (SQLPyodbcHandler._insert_values SQLPyodbcHandler._conn)
    SQLPyodbcHandler._separate_nulls Journal.users "USERS" [] Journal.prod
  = (Return tt, refused Journal.prod).
Proof.
  split; [reflexivity|].
  destruct (read_only_suppresses_mutation
              SQLPyodbcHandler._conn
              (SQLPyodbcHandler._insert_values SQLPyodbcHandler._conn)
              SQLPyodbcHandler._separate_nulls Journal.prod eq_refl)
    as (Hexec & Hiter & Hbulk & _).
  split; [apply Hexec|]. split; [apply Hiter|apply Hbulk].
Defined.

Lemma iter_execute_modes_witness :
  (read_only (self Journal.dev) = false /\
   contains_char "?" Journal.users_sql = true /\
   @connect_error (Journal.backend true) (connection_string (self Journal.dev)) = None) /\
  fst (SQLPyodbcHandler.iter_execute SQLPyodbcHandler._conn Journal.users_sql
         (values Journal.users) "raise" Journal.dev)
  = Raise (DriverError "NULL not allowed") /\
  db (snd (SQLPyodbcHandler.iter_execute SQLPyodbcHandler._conn Journal.users_sql
             (values Journal.users) "raise" Journal.dev))
  = [] /\
  db (snd (SQLPyodbcHandler.iter_execute SQLPyodbcHandler._conn Journal.users_sql
             (values Journal.users) "ignore" Journal.dev))
  = [(Journal.users_sql, Journal.mary); (Journal.users_sql, Journal.bill)] /\
  stdout (snd (SQLPyodbcHandler.iter_execute SQLPyodbcHandler._conn Journal.users_sql
                 (values Journal.users) "ignore" Journal.dev))
  = [PBlank; PExn (DriverError "NULL not allowed"); PRow Journal.anonymous; PBlank].
Proof.
  split; [repeat split|].
  destruct (@iter_execute_modes (Journal.backend true) Journal.dev Journal.users_sql
              (values Journal.users) eq_refl eq_refl eq_refl)
    as [Hraise (_ & Hdb & _ & _ & Hout)].
  cbv zeta in Hraise.
  assert (Hf : first_failure Journal.users_sql (values Journal.users) (db Journal.dev)
               = Some (1, "NULL not allowed")) by reflexivity.
  rewrite Hf in Hraise. destruct Hraise as (Hr & Hd & _).
  split; [exact Hr|]. split; [exact Hd|]. split; [exact Hdb|exact Hout].
Defined.

Lemma lenient_accepts_batches :
  forall sql rows d,
    exists d', @cursor_executemany (Journal.backend false) sql rows d = inr d'.
Proof. intros sql rows d. eexists. reflexivity. Defined.

Lemma lenient_writes_tables :
  forall url t s f d,
    exists d', @to_sql (Journal.backend false) url t s f d = inr d'.
Proof. intros url t s f d. eexists. reflexivity. Defined.

Lemma users_wf : wf_frame Journal.users.
Proof.
  repeat split.
  - repeat constructor; simpl; intuition discriminate.
  - repeat constructor.
Defined.

Lemma scores_wf : wf_frame Journal.scores.
Proof.
  repeat split.
  - repeat constructor; simpl; intuition discriminate.
  - repeat constructor.
Defined.

Lemma bulk_insert_separates_named_column_witness :
  (read_only (self Journal.dev_lenient) = false /\
   wf_frame Journal.users /\
   truthy (kwargs_get [("handle_nulls", KStr "Name")] "remove_nulls" (KBool false)) = false /\
   kwargs_get [("handle_nulls", KStr "Name")] "handle_nulls" KNone = KStr "Name" /\
   "Name" <> "*" /\
   col_index "Name" (columns Journal.users) = Some 1) /\
  fst (SQLPyodbcHandler.bulk_insert
         (SQLPyodbcHandler._insert_values SQLPyodbcHandler._conn)
         SQLPyodbcHandler._separate_nulls Journal.users "USERS"
         [("handle_nulls", KStr "Name")] Journal.dev_lenient)
  = Return tt /\
  insert_passes
    (calls (snd (SQLPyodbcHandler.bulk_insert
                   (SQLPyodbcHandler._insert_values SQLPyodbcHandler._conn)
                   SQLPyodbcHandler._separate_nulls Journal.users "USERS"
                   [("handle_nulls", KStr "Name")] Journal.dev_lenient)))
  = [[Journal.mary; Journal.bill]; [Journal.anonymous]].
Proof.
  assert (Hstar : "Name" <> "*") by discriminate.
  split; [repeat split; try exact Hstar; apply users_wf|].
  destruct (@bulk_insert_separates_named_column (Journal.backend false)
              Journal.dev_lenient Journal.users "USERS" [("handle_nulls", KStr "Name")]
              "Name" 1 eq_refl users_wf eq_refl eq_refl Hstar eq_refl)
    as (_ & _ & _ & (passes & rest & Hp & Hparts & _ & Hrest) & Hreturns).
  assert (Hret := Hreturns eq_refl lenient_accepts_batches).
  split; [exact Hret|].
  rewrite (Hrest Hret), app_nil_r in Hparts. rewrite Hp, <- Hparts. reflexivity.
Defined.

Lemma bulk_insert_star_and_dropna_witness :
  (read_only (self Journal.dev_lenient) = false /\ wf_frame Journal.scores) /\
  insert_passes
    (calls (snd (SQLPyodbcHandler.bulk_insert
                   (SQLPyodbcHandler._insert_values SQLPyodbcHandler._conn)
                   SQLPyodbcHandler._separate_nulls Journal.scores "SCORES"
                   [("handle_nulls", KStr "*")] Journal.dev_lenient)))
  = [[[VInt 1; VStr "Mary"; VNone];
      [VInt 2; VStr ""; VFloat "1.5"];
      [VInt 3; VStr "Bill"; VFloat "2.0"]]] /\
  insert_passes
    (calls (snd (SQLPyodbcHandler.bulk_insert
                   (SQLPyodbcHandler._insert_values SQLPyodbcHandler._conn)
                   SQLPyodbcHandler._separate_nulls Journal.scores "SCORES"
                   [("remove_nulls", KBool true)] Journal.dev_lenient)))
  = [[[VInt 3; VStr "Bill"; VFloat "2.0"]]].
Proof.
  split; [split; [reflexivity|apply scores_wf]|]. split.
  - destruct (@bulk_insert_star_and_dropna (Journal.backend false)
                Journal.dev_lenient Journal.scores "SCORES" [("handle_nulls", KStr "*")]
                eq_refl scores_wf)
      as (Hstar & _).
    destruct (Hstar eq_refl eq_refl) as ((passes & Hp & Hlen & Hin & Hcat) & Hreturns).
    assert (Hret := Hreturns eq_refl lenient_accepts_batches).
    specialize (Hcat Hret). rewrite Hp. cbn [app insert_passes flat_map calls Journal.dev_lenient Journal.start].
    destruct passes as [|p [|q passes]]; simpl in Hlen; try lia.
    + discriminate Hcat.
    + simpl in Hcat. rewrite app_nil_r in Hcat. subst p. reflexivity.
  - destruct (@bulk_insert_star_and_dropna (Journal.backend false)
                Journal.dev_lenient Journal.scores "SCORES" [("remove_nulls", KBool true)]
                eq_refl scores_wf)
      as (_ & _ & _ & Hdrop).
    destruct (Hdrop eq_refl eq_refl) as ((passes & Hp & Hlen & Hin & Hcat) & Hreturns).
    assert (Hret := Hreturns eq_refl lenient_accepts_batches).
    specialize (Hcat Hret). rewrite Hp. cbn [app insert_passes flat_map calls Journal.dev_lenient Journal.start].
    destruct passes as [|p [|q passes]]; simpl in Hlen; try lia.
    + discriminate Hcat.
    + simpl in Hcat. rewrite app_nil_r in Hcat. subst p. reflexivity.
Defined.

Lemma query_returns_table_and_keeps_handle_witness :
  @connect_error (Journal.backend true) (connection_string (self Journal.prod)) = None /\
  read_only (self Journal.prod) = true /\
  fst (SQLPyodbcHandler.query SQLPyodbcHandler._conn "SELECT * FROM USERS;" None true []
         Journal.prod)
  = Return (Frame (mkFrame ["stmt"] [object] [])) /\
  fst (SQLPyodbcHandler.query SQLPyodbcHandler._conn "SELECT * FROM USERS;" (Some [])
         false [] Journal.prod)
  = Return (Tuples []) /\
  read_only (self (snd (SQLPyodbcHandler.query SQLPyodbcHandler._conn
                          "SELECT * FROM USERS;" None true [] Journal.prod)))
  = true.
Proof.
  split; [reflexivity|]. split; [reflexivity|].
  destruct (@query_returns_table_and_keeps_handle (Journal.backend true) Journal.prod
              "SELECT * FROM USERS;" None [])
    as (Hkeep & Hrun).
  destruct (Hrun eq_refl) as (Hframe & _).
  destruct (@query_returns_table_and_keeps_handle (Journal.backend true) Journal.prod
              "SELECT * FROM USERS;" (Some []) [])
    as (_ & Hrun').
  destruct (Hrun' eq_refl) as (_ & Htuples).
  split; [exact (proj1 (Hframe _ _ eq_refl))|].
  split; [exact (proj1 (Htuples _ _ eq_refl))|].
  exact (proj2 (Hkeep true)).
Defined.

Lemma iter_execute_validates_arguments_witness :
  (read_only (self Journal.dev) = false /\
   contains_char "?" "DELETE FROM USERS;" = false /\
   contains_char "?" Journal.users_sql = true /\
   "continue" <> "raise" /\ "continue" <> "ignore" /\
   @connect_error (Journal.backend true) (connection_string (self Journal.dev)) = None /\
   read_only (self Journal.offline) = false /\
   @connect_error (Journal.backend true) (connection_string (self Journal.offline))
   = Some "IM002" /\
   read_only (self Journal.prod) = true) /\
  SQLPyodbcHandler.iter_execute SQLPyodbcHandler._conn "DELETE FROM USERS;"
    (values Journal.users) "raise" Journal.dev
  = (Raise (ValueError "Sql statement must be parameterized."), Journal.dev) /\
  SQLPyodbcHandler.iter_execute SQLPyodbcHandler._conn Journal.users_sql
    (values Journal.users) "continue" Journal.dev
  = (Raise (TypeError
       "Invalid argument for 'error_handling'. Argument must be 'raise' or 'ignore'."),
     connected Journal.dev) /\
  SQLPyodbcHandler.iter_execute SQLPyodbcHandler._conn Journal.users_sql
    (values Journal.users) "continue" Journal.offline
  = (Raise (DriverError "IM002"), unreachable Journal.offline) /\
  SQLPyodbcHandler.iter_execute SQLPyodbcHandler._conn "DELETE FROM USERS;"
    (values Journal.users) "continue" Journal.prod
  = (Return tt, refused Journal.prod).
Proof.
  assert (Hr : "continue" <> "raise") by discriminate.
  assert (Hi : "continue" <> "ignore") by discriminate.
  split; [repeat split; assumption|]. split; [|split; [|split]].
  - exact (proj1 (@iter_execute_validates_arguments (Journal.backend true) Journal.dev
                    "DELETE FROM USERS;" (values Journal.users) "raise")
                 eq_refl eq_refl).
  - exact (proj1 (proj1 (proj2 (@iter_execute_validates_arguments (Journal.backend true)
                    Journal.dev Journal.users_sql (values Journal.users) "continue"))
                 eq_refl eq_refl Hr Hi eq_refl)).
  - exact (proj1 (proj1 (proj2 (proj2 (@iter_execute_validates_arguments
                    (Journal.backend true) Journal.offline Journal.users_sql
                    (values Journal.users) "continue")))
                 eq_refl eq_refl "IM002" eq_refl)).
  - exact (proj2 (proj2 (proj2 (@iter_execute_validates_arguments (Journal.backend true)
                    Journal.prod "DELETE FROM USERS;" (values Journal.users)
                    "continue")))
                 eq_refl).
Defined.

(** C9 as stated fails: on a writable handle whose connection cannot be
    opened, a parameterized statement with a mode that is neither ['raise']
    nor ['ignore'] raises the driver's error, not [TypeError]. *)
Lemma iter_execute_type_error_counterexample :
  read_only (self Journal.offline) = false /\
  contains_char "?" Journal.users_sql = true /\
  "continue" <> "raise" /\ "continue" <> "ignore" /\
  fst (SQLPyodbcHandler.iter_execute SQLPyodbcHandler._conn Journal.users_sql
         (values Journal.users) "continue" Journal.offline)
  = Raise (DriverError "IM002") /\
  ~ (exists msg,
        fst (SQLPyodbcHandler.iter_execute SQLPyodbcHandler._conn Journal.users_sql
               (values Journal.users) "continue" Journal.offline)
        = Raise (TypeError msg)).
Proof.
  repeat split; try discriminate.
  intros [msg Hmsg]. discriminate Hmsg.
Qed.

Lemma empty_rows_insert_nothing_witness :
  values Journal.nobody = [] /\
  calls (snd (SQLPyodbcHandler._insert_values SQLPyodbcHandler._conn Journal.nobody
                "USERS" (KBool false) Journal.dev))
  = [] /\
  calls (snd (SQLPyodbcHandler.bulk_insert
                (SQLPyodbcHandler._insert_values SQLPyodbcHandler._conn)
                SQLPyodbcHandler._separate_nulls Journal.nobody "USERS"
                [("handle_nulls", KStr "Name")] Journal.dev))
  = [].
Proof.
  split; [reflexivity|].
  destruct (@empty_rows_insert_nothing (Journal.backend true)) as (Hhelper & Hbulk).
  split.
  - exact (proj1 (proj2 (Hhelper SQLPyodbcHandler._conn Journal.nobody "USERS"
                                 (KBool false) Journal.dev eq_refl))).
  - exact (proj1 (Hbulk Journal.nobody "USERS" [("handle_nulls", KStr "Name")]
                        Journal.dev eq_refl)).
Defined.

(** C6 as stated fails: called as the base handler's [execute], [query] and
    [iter_execute] are called, the alternate handler's methods raise
    [TypeError] where the base handler runs the statement and returns. *)
Lemma alternate_handler_same_contract_counterexample :
  ~ same_contract
      (SQLPyodbcHandler.execute SQLPyodbcHandler._conn
         "DELETE FROM USERS WHERE ID = ?;" [VInt 1])
      (SQLAlchemyHandler.execute 2) Journal.alchemy /\
  ~ same_contract
      (SQLPyodbcHandler.query SQLPyodbcHandler._conn "SELECT * FROM USERS;" None true [])
      (SQLAlchemyHandler.query 1) Journal.alchemy /\
  ~ same_contract
      (SQLPyodbcHandler.iter_execute SQLPyodbcHandler._conn Journal.users_sql
         (values Journal.users) "ignore")
      (SQLAlchemyHandler.iter_execute 3) Journal.alchemy.
Proof.
  split; [|split]; intros [Hret _].
  - destruct (Hret tt eq_refl) as [b Hb]. discriminate Hb.
  - destruct (Hret (Frame (mkFrame ["stmt"] [object] [])) eq_refl) as [b Hb].
    discriminate Hb.
  - destruct (Hret tt eq_refl) as [b Hb]. discriminate Hb.
Qed.

Lemma alternate_handler_keeps_bulk_insert_only_witness :
  (read_only (self Journal.alchemy) = false /\
   @connect_error (Journal.backend false) (connection_string (self Journal.alchemy))
   = None) /\
  SQLAlchemyHandler.execute 0 Journal.alchemy = (Return tt, Journal.alchemy) /\
  (exists msg,
      SQLAlchemyHandler.execute 2 Journal.alchemy = (Raise (TypeError msg), Journal.alchemy)) /\
  calls (snd (SQLAlchemyHandler._insert_values Journal.nobody "USERS" (KBool true)
                Journal.alchemy))
  = [CreateEngine "mssql+pyodbc:///?odbc_connect=DSN=warehouse";
     ToSql "USERS" "dbo" Journal.nobody "append" false] /\
  fst (SQLAlchemyHandler.bulk_insert Journal.users "USERS"
         [("handle_nulls", KStr "Name")] Journal.alchemy)
  = fst (SQLPyodbcHandler.bulk_insert
           (SQLPyodbcHandler._insert_values SQLPyodbcHandler._conn)
           SQLPyodbcHandler._separate_nulls Journal.users "USERS"
           [("handle_nulls", KStr "Name")] Journal.alchemy).
Proof.
  split; [split; reflexivity|].
  destruct (@alternate_handler_keeps_bulk_insert_only (Journal.backend false)
              Journal.alchemy)
    as ((_ & Hbare & _) & Hargs & _ & Hpass & Hsame).
  split; [exact Hbare|]. split; [exact (proj1 (proj2 (Hargs 1)))|].
  split; [exact (Hpass Journal.nobody "USERS" (KBool true))|].
  exact (proj1 (Hsame eq_refl eq_refl lenient_accepts_batches lenient_writes_tables
                      Journal.users "USERS" [("handle_nulls", KStr "Name")])).
Defined.

(** * Further properties of the handlers *)

(** ** Single statements and failing connections *)

Section Statements.
Context `{Backend}.

(** X1: [execute] on a writable handle with an open connection sends the
    statement once, with its parameters as one tuple.  If the driver accepts
    it the change is committed and the call returns [None]; if the driver
    refuses it the call raises the driver's error, the transaction is rolled
    back and the database is what it was. *)
Theorem execute_commits_or_rolls_back
        (st : state) (sql : string) (params : row) :
  read_only (self st) = false ->
  connect_error (connection_string (self st)) = None ->
  let r := SQLPyodbcHandler.execute SQLPyodbcHandler._conn sql params st in
  match cursor_execute sql (Some params) (db st) with
  | inr (d', _) =>
      fst r = Return tt /\ db (snd r) = d' /\
      calls (snd r) = calls (connected st) ++ [CursorExecute sql (Some params); Commit]
  | inl msg =>
      fst r = Raise (DriverError msg) /\ db (snd r) = db st /\
      calls (snd r) = calls (connected st) ++ [CursorExecute sql (Some params); Rollback]
  end.
Proof.
  intros Hro Hc r.
  assert (Hrun : r = with_ Connection (c_execute sql (Some params) ;;; ret tt)
                       (connected st)).
  { subst r. unfold SQLPyodbcHandler.execute.
    rewrite allow_method_writable by exact Hro.
    unfold bind at 1. rewrite conn_connected by exact Hc. reflexivity. }
  clearbody r. subst r. cbn [with_].
  unfold c_execute, bind, log_call, get_txn. cbn [txn connected].
  destruct (cursor_execute sql (Some params) (db st)) as [msg|[d' rs]];
    cbn; rewrite <- app_assoc; repeat split.
Qed.

(** X2: when [pyodbc.connect] raises, every method that needs a connection
    raises that error after the one connection attempt: no statement is
    sent, nothing is committed or rolled back.  For [iter_execute] this
    comes before the test of [error_handling], so an invalid mode is not
    reported. *)
Theorem failed_connection_sends_nothing (st : state) (msg : string) :
  connect_error (connection_string (self st)) = Some msg ->
  (forall sql params pdf kw,
      SQLPyodbcHandler.query SQLPyodbcHandler._conn sql params pdf kw st
      = (Raise (DriverError msg), unreachable st)) /\
  (read_only (self st) = false ->
   (forall sql params,
       SQLPyodbcHandler.execute SQLPyodbcHandler._conn sql params st
       = (Raise (DriverError msg), unreachable st)) /\
   (forall sql rows mode,
       contains_char "?" sql = true ->
       SQLPyodbcHandler.iter_execute SQLPyodbcHandler._conn sql rows mode st
       = (Raise (DriverError msg), unreachable st)) /\
   (forall df table ident,
       values df <> [] ->
       SQLPyodbcHandler._insert_values SQLPyodbcHandler._conn df table ident st
       = (Raise (DriverError msg), unreachable st))) /\
  statements (calls (unreachable st)) = statements (calls st) /\
  db (unreachable st) = db st.
Proof.
  intro Hc. split; [|split; [|split]].
  - intros sql params pdf kw. unfold SQLPyodbcHandler.query, bind.
    rewrite (conn_refused _ Hc). reflexivity.
  - intro Hro. split; [|split].
    + intros sql params. unfold SQLPyodbcHandler.execute.
      rewrite allow_method_writable by exact Hro.
      unfold bind. rewrite (conn_refused _ Hc). reflexivity.
    + intros sql rows mode Hq. unfold SQLPyodbcHandler.iter_execute.
      rewrite allow_method_writable by exact Hro.
      rewrite Hq. cbn [negb]. unfold bind. rewrite (conn_refused _ Hc). reflexivity.
    + intros df table ident Hne. rewrite insert_values_run by exact Hro. cbv zeta.
      rewrite Hc. destruct (values df); [contradiction|reflexivity].
  - unfold statements, unreachable. cbn [calls]. rewrite filter_app. apply app_nil_r.
  - reflexivity.
Qed.

(** X3: [query] runs inside the same commit-on-exit block as the mutating
    methods, read-only handle or not.  Whatever the statement changed is
    committed when a result comes back; when [fetchall] finds no result set,
    or the driver refuses the statement, the call raises and the change is
    rolled back. *)
Theorem query_commits_or_rolls_back
        (st : state) (sql : string) (params : pyparams) (kw : kwargs) :
  connect_error (connection_string (self st)) = None ->
  let framed := SQLPyodbcHandler.query SQLPyodbcHandler._conn sql params true kw st in
  let tuples := SQLPyodbcHandler.query SQLPyodbcHandler._conn sql params false kw st in
  match read_sql sql params kw (db st) with
  | inr (d', df) => fst framed = Return (Frame df) /\ db (snd framed) = d'
  | inl msg => fst framed = Raise (DriverError msg) /\ db (snd framed) = db st
  end /\
  match cursor_execute sql params (db st) with
  | inr (d', Some rows) => fst tuples = Return (Tuples rows) /\ db (snd tuples) = d'
  | inr (d', None) =>
      fst tuples = Raise (DriverError "No results.  Previous SQL was not a query.") /\
      db (snd tuples) = db st /\
      calls (snd tuples) = calls (connected st) ++ [CursorExecute sql params; Rollback]
  | inl msg => fst tuples = Raise (DriverError msg) /\ db (snd tuples) = db st
  end.
Proof.
  intros Hc framed tuples. subst framed tuples.
  unfold SQLPyodbcHandler.query, bind. rewrite (conn_connected _ Hc). cbn [with_].
  unfold pd_read_sql, c_execute, bind, log_call, get_txn. cbn [txn connected].
  split.
  - destruct (read_sql sql params kw (db st)) as [msg|[d' df]]; cbn; split; reflexivity.
  - destruct (cursor_execute sql params (db st)) as [msg|[d' [rows|]]]; cbn;
      rewrite <- ?app_assoc; repeat split.
Qed.

End Statements.

(** ** Batches, once more *)

Section BatchAlgebra.
Context `{Backend}.

Lemma apply_rows_app sql rows1 : forall rows2 d,
  apply_rows sql (rows1 ++ rows2) d = apply_rows sql rows2 (apply_rows sql rows1 d).
Proof.
  induction rows1 as [|r rows1 IH]; intros rows2 d; [reflexivity|].
  cbn [app apply_rows].
  destruct (cursor_execute sql (Some r) d) as [msg|[d' rs]]; apply IH.
Qed.

Lemma failure_report_app sql rows1 : forall rows2 d,
  failure_report sql (rows1 ++ rows2) d
  = failure_report sql rows1 d ++ failure_report sql rows2 (apply_rows sql rows1 d).
Proof.
  induction rows1 as [|r rows1 IH]; intros rows2 d; [reflexivity|].
  cbn [app apply_rows failure_report].
  destruct (cursor_execute sql (Some r) d) as [msg|[d' rs]]; rewrite IH; reflexivity.
Qed.

Lemma no_failure_no_report sql rows : forall d,
  first_failure sql rows d = None -> failure_report sql rows d = [].
Proof.
  induction rows as [|r rows IH]; intros d Hf; [reflexivity|].
  cbn [first_failure failure_report] in *.
  destruct (cursor_execute sql (Some r) d) as [msg|[d' rs]]; [discriminate|].
  apply IH. destruct (first_failure sql rows d') as [[i m]|]; [discriminate|reflexivity].
Qed.

(** X4: in mode ['ignore'] a batch may be cut anywhere: running the first
    rows and then, on the same handle, the remaining rows leaves the database
    and the printed report that one call on all rows leaves.  A refused row
    never affects the rows around it. *)
Theorem ignore_batches_compose
        (st : state) (sql : string) (rows1 rows2 : list row) :
  read_only (self st) = false ->
  contains_char "?" sql = true ->
  connect_error (connection_string (self st)) = None ->
  let once :=
    SQLPyodbcHandler.iter_execute SQLPyodbcHandler._conn sql (rows1 ++ rows2) "ignore" st in
  let first :=
    SQLPyodbcHandler.iter_execute SQLPyodbcHandler._conn sql rows1 "ignore" st in
  let second :=
    SQLPyodbcHandler.iter_execute SQLPyodbcHandler._conn sql rows2 "ignore" (snd first) in
  fst once = fst second /\
  db (snd once) = db (snd second) /\
  stdout (snd once) = stdout (snd second).
Proof.
  intros Hro Hq Hc once first second. subst once second first.
  rewrite (iter_execute_ignore_run st sql (rows1 ++ rows2) Hro Hq Hc).
  rewrite (iter_execute_ignore_run st sql rows1 Hro Hq Hc). cbn [snd].
  rewrite iter_execute_ignore_run by assumption.
  cbn [fst snd db stdout].
  rewrite apply_rows_app, failure_report_app, app_assoc. repeat split.
Qed.

(** X5: when the driver refuses no row, the two modes differ only in how often
    they commit: both return [None], leave the same database and print
    nothing. *)
Theorem modes_agree_without_failure
        (st : state) (sql : string) (rows : list row) :
  read_only (self st) = false ->
  contains_char "?" sql = true ->
  connect_error (connection_string (self st)) = None ->
  first_failure sql rows (db st) = None ->
  let strict :=
    SQLPyodbcHandler.iter_execute SQLPyodbcHandler._conn sql rows "raise" st in
  let lax :=
    SQLPyodbcHandler.iter_execute SQLPyodbcHandler._conn sql rows "ignore" st in
  fst strict = Return tt /\ fst lax = Return tt /\
  db (snd strict) = db (snd lax) /\
  stdout (snd strict) = stdout st /\ stdout (snd lax) = stdout st /\
  statements (calls (snd strict)) = statements (calls (snd lax)).
Proof.
  intros Hro Hq Hc Hf strict lax. subst strict lax.
  rewrite iter_execute_raise_run, iter_execute_ignore_run by assumption.
  rewrite Hf. cbn [fst snd db stdout calls].
  rewrite (no_failure_no_report _ _ _ Hf), app_nil_r.
  repeat split.
  unfold statements. rewrite !filter_app.
  fold (statements (row_by_row sql rows (db st))). rewrite statements_row_by_row.
  f_equal. f_equal. unfold one_per_row. clear.
  induction rows as [|r rows IH]; [reflexivity|]. cbn. rewrite IH. reflexivity.
Qed.

End BatchAlgebra.

(** ** The insert statement *)

Lemma count_char_app c a : forall b,
  count_char c (a ++ b)%string = count_char c a + count_char c b.
Proof.
  induction a as [|x a IH]; intro b; [reflexivity|].
  cbn [String.append count_char]. rewrite IH. lia.
Qed.

Lemma count_char_absent c s : contains_char c s = false -> count_char c s = 0.
Proof.
  induction s as [|x s IH]; intro Hs; [reflexivity|].
  cbn [contains_char count_char] in *. apply orb_false_iff in Hs.
  destruct Hs as [-> Hs]. rewrite (IH Hs). reflexivity.
Qed.

Lemma count_char_labels (l : list string) :
  Forall (fun c => contains_char "?" c = false) l ->
  count_char "?" (String.concat "," l) = 0.
Proof.
  induction 1 as [|x l Hx Hl IH]; [reflexivity|].
  cbn [String.concat]. destruct l as [|y l]; [apply count_char_absent; exact Hx|].
  rewrite !count_char_app, IH, (count_char_absent _ _ Hx). reflexivity.
Qed.

Lemma count_char_markers n : forall k,
  count_char "?" (String.concat "," (map (fun _ => "?") (seq k n))) = n.
Proof.
  induction n as [|n IH]; intro k; [reflexivity|].
  cbn [seq map String.concat]. specialize (IH (S k)).
  destruct n as [|n]; [reflexivity|].
  cbn [seq map] in *. rewrite !count_char_app, IH. reflexivity.
Qed.

Lemma insert_statement_fits (cols : list string) (table : string) (ident : kwval) :
  contains_char "?" table = false ->
  Forall (fun c => contains_char "?" c = false) cols ->
  count_char "?" (SQLPyodbcHandler.insert_statement cols table ident)
  = List.length cols.
Proof.
  intros Ht Hcols. unfold SQLPyodbcHandler.insert_statement.
  destruct (truthy ident); rewrite !count_char_app;
    rewrite (count_char_absent _ _ Ht), (count_char_labels Hcols), count_char_markers;
    cbn; lia.
Qed.

(** X6: the statement built for a well-formed frame has exactly one [?]
    marker per column, with or without the [IDENTITY_INSERT] wrapping, so
    every row of the frame brings as many values as the statement has
    markers; this needs that no [?] hides in the table name or in a label. *)
Theorem insert_statement_has_one_marker_per_column
        (f : DataFrame) (table : string) (ident : kwval) :
  wf_frame f ->
  contains_char "?" table = false ->
  Forall (fun c => contains_char "?" c = false) (columns f) ->
  count_char "?" (SQLPyodbcHandler.insert_statement (columns f) table ident)
  = List.length (columns f) /\
  Forall (fun r : row =>
            List.length r
            = count_char "?" (SQLPyodbcHandler.insert_statement (columns f) table ident))
         (values f).
Proof.
  intros (_ & _ & Hrows) Ht Hcols.
  rewrite (@insert_statement_fits (columns f) table ident Ht Hcols).
  split; [reflexivity|exact Hrows].
Qed.

(** ** Frames stay well formed *)

Lemma length_star_row : forall r ts, List.length (star_row ts r) = List.length r.
Proof.
  induction r as [|x r IH]; intro ts; [reflexivity|].
  destruct ts; cbn [star_row List.length]; rewrite IH; reflexivity.
Qed.

Lemma star_row_without_nulls : forall r ts,
  forallb notnull r = true -> star_row ts r = r.
Proof.
  induction r as [|x r IH]; intros ts Hr; [reflexivity|].
  cbn [forallb] in Hr. apply andb_true_iff in Hr. destruct Hr as [Hx Hr].
  unfold notnull in Hx. apply negb_true_iff in Hx.
  destruct ts; cbn [star_row]; unfold star_cell; rewrite Hx, IH by exact Hr;
    reflexivity.
Qed.

Lemma star_cell_bindable t x : bindable (star_cell t x) = true.
Proof.
  unfold star_cell. destruct x; cbn; try reflexivity;
    destruct (dtype_eqb t object); reflexivity.
Qed.

Lemma wf_dropna df : wf_frame df -> wf_frame (dropna df).
Proof.
  intros (Hnd & Hlen & Hrows). repeat split; cbn; try assumption.
  rewrite Forall_forall in *. intros r Hr. apply filter_In in Hr. apply Hrows, Hr.
Qed.

Lemma star_frame_columns df :
  columns (astype_object_where_notnull (SQLPyodbcHandler.fill_text_columns df))
  = columns df.
Proof.
  unfold astype_object_where_notnull, SQLPyodbcHandler.fill_text_columns. cbn [columns].
  apply fill_loop_shape.
Qed.

Lemma wf_star_frame df :
  wf_frame df ->
  wf_frame (astype_object_where_notnull (SQLPyodbcHandler.fill_text_columns df)).
Proof.
  intro Hwf. pose proof (star_frame_values Hwf) as Hv.
  pose proof (star_frame_columns df) as Hc.
  destruct Hwf as (Hnd & Hlen & Hrows). split; [|split].
  - rewrite Hc. exact Hnd.
  - rewrite Hc. unfold astype_object_where_notnull, SQLPyodbcHandler.fill_text_columns.
    cbn [dtypes]. rewrite length_map.
    destruct (fill_loop_shape (columns df) df) as (_ & -> & _). exact Hlen.
  - rewrite Hv, Hc. apply Forall_map. rewrite Forall_forall in *. intros r Hr.
    rewrite length_star_row. apply Hrows, Hr.
Qed.

Section FrameInvariants.
Context `{Backend}.

Lemma separate_nulls_parts_wf df column vals nulls (st st' : state) :
  wf_frame df ->
  SQLPyodbcHandler._separate_nulls df column st = (Return (vals, nulls), st') ->
  st' = st /\
  wf_frame vals /\ columns vals = columns df /\
  wf_frame nulls /\ columns nulls = columns df.
Proof.
  intros Hwf Hsep.
  unfold SQLPyodbcHandler._separate_nulls in Hsep.
  destruct column as [|b|label]; try discriminate.
  destruct (col_index label (columns df)) as [i|]; [|discriminate].
  injection Hsep as <- <- <-.
  destruct Hwf as (Hnd & Hlen & Hrows). rewrite Forall_forall in Hrows.
  split; [reflexivity|]. split; [|split; [reflexivity|split; [|reflexivity]]].
  - repeat split; cbn; try assumption.
    apply Forall_forall. intros r Hr. apply filter_In in Hr. apply Hrows, Hr.
  - repeat split; cbn; try assumption.
    + rewrite !length_set_nth. exact Hlen.
    + apply Forall_map, Forall_map, Forall_forall. intros r Hr.
      apply filter_In in Hr. rewrite !length_set_nth. apply Hrows, Hr.
Qed.

(** X7: every reshaping step of [bulk_insert] hands on a well-formed frame
    with the labels of the input: [dropna], the ['*'] rewrite, and both
    parts [_separate_nulls] returns, which it computes without touching the
    state. *)
Theorem reshaping_keeps_frames_well_formed (df : DataFrame) :
  wf_frame df ->
  (wf_frame (dropna df) /\ columns (dropna df) = columns df) /\
  (wf_frame (astype_object_where_notnull (SQLPyodbcHandler.fill_text_columns df)) /\
   columns (astype_object_where_notnull (SQLPyodbcHandler.fill_text_columns df))
   = columns df) /\
  (forall column vals nulls (st st' : state),
      SQLPyodbcHandler._separate_nulls df column st = (Return (vals, nulls), st') ->
      st' = st /\
      wf_frame vals /\ columns vals = columns df /\
      wf_frame nulls /\ columns nulls = columns df).
Proof.
  intro Hwf. split; [|split].
  - split; [apply wf_dropna; exact Hwf|reflexivity].
  - split; [apply wf_star_frame; exact Hwf|apply star_frame_columns].
  - intros column vals nulls st st' Hsep.
    exact (@separate_nulls_parts_wf df column vals nulls st st' Hwf Hsep).
Qed.

End FrameInvariants.

(** X8: under the ['*'] policy nothing unbindable is left: no cell of the
    frame handed to the insert helper is [NaN] or [NaT], and no cell of an
    object column is missing at all. *)
Theorem star_policy_leaves_no_nan (df : DataFrame) :
  wf_frame df ->
  let sent := values (astype_object_where_notnull
                        (SQLPyodbcHandler.fill_text_columns df)) in
  Forall (fun r => forallb bindable r = true) sent /\
  (forall r j x,
      In r sent -> nth_error r j = Some x ->
      nth_error (dtypes df) j = Some object -> isna x = false).
Proof.
  intros Hwf sent. subst sent. rewrite (star_frame_values Hwf). split.
  - apply Forall_map, Forall_forall. intros r _. apply forallb_forall.
    intros x Hx. apply In_nth_error in Hx. destruct Hx as [j Hj].
    rewrite nth_error_star_row in Hj.
    destruct (nth_error r j) as [y|]; [|discriminate].
    injection Hj as <-. apply star_cell_bindable.
  - intros r j x Hr Hx Ht. apply in_map_iff in Hr. destruct Hr as (r0 & <- & _).
    rewrite nth_error_star_row in Hx.
    destruct (nth_error r0 j) as [y|]; [|discriminate].
    injection Hx as <-. rewrite (nth_error_nth _ _ object Ht).
    unfold star_cell. destruct y; reflexivity.
Qed.

(** On a frame without missing cells the ['*'] rewrite changes no cell. *)
Lemma star_after_dropna_values (df : DataFrame) :
  wf_frame df ->
  values (astype_object_where_notnull
            (SQLPyodbcHandler.fill_text_columns (dropna df)))
  = values (dropna df).
Proof.
  intro Hwf. rewrite (star_frame_values (wf_dropna Hwf)).
  rewrite <- (map_id (values (dropna df))) at 2. apply map_ext_in.
  intros r Hr. apply star_row_without_nulls.
  apply filter_In in Hr. apply Hr.
Qed.

(** ** Passes, statement by statement *)

Section PassDetails.
Context `{Backend}.

Lemma batches_app l1 l2 : batches (l1 ++ l2) = batches l1 ++ batches l2.
Proof. apply flat_map_app. Qed.

(** What one call of the insert helper adds to the batches. *)
Lemma insert_values_batches f table ident (st : state) :
  read_only (self st) = false ->
  let r := SQLPyodbcHandler._insert_values SQLPyodbcHandler._conn f table ident st in
  self (snd r) = self st /\
  exists issued : bool,
    batches (calls (snd r))
    = batches (calls st)
        ++ (if issued
            then [(SQLPyodbcHandler.insert_statement (columns f) table ident, values f)]
            else []).
Proof.
  intros Hro r. subst r. rewrite insert_values_run by exact Hro. cbv zeta.
  destruct (Nat.ltb 0 (List.length (values f))).
  - destruct (connect_error (connection_string (self st))) as [msg|].
    + split; [reflexivity|]. exists false. cbn [snd calls].
      rewrite batches_app. reflexivity.
    + destruct (cursor_executemany _ (values f) (db st)) as [msg|d'];
        (split; [reflexivity|]); exists true; cbn [snd calls];
        rewrite batches_app; reflexivity.
  - split; [reflexivity|]. exists false. cbn [snd]. rewrite app_nil_r. reflexivity.
Qed.

(** A well-formed frame fits its own statement. *)
Lemma frame_fits_statement f table ident :
  wf_frame f ->
  contains_char "?" table = false ->
  Forall (fun c => contains_char "?" c = false) (columns f) ->
  Forall (fun r : row =>
            List.length r
            = count_char "?" (SQLPyodbcHandler.insert_statement (columns f) table ident))
         (values f).
Proof.
  intros (_ & _ & Hrows) Ht Hcols.
  rewrite (@insert_statement_fits (columns f) table ident Ht Hcols). exact Hrows.
Qed.

End PassDetails.

Section PolicyDetails.
Context `{Backend}.

Lemma one_pass_fits f table ident (st : state) :
  read_only (self st) = false ->
  wf_frame f ->
  contains_char "?" table = false ->
  Forall (fun c => contains_char "?" c = false) (columns f) ->
  let r := SQLPyodbcHandler._insert_values SQLPyodbcHandler._conn f table ident st in
  self (snd r) = self st /\
  exists new,
    batches (calls (snd r)) = batches (calls st) ++ new /\
    Forall (fun b : string * list row =>
              Forall (fun r : row => List.length r = count_char "?" (fst b)) (snd b))
           new.
Proof.
  intros Hro Hwf Ht Hcols r.
  destruct (insert_values_batches f table ident st Hro) as (Hself & issued & Hb).
  split; [exact Hself|].
  exists (if issued
          then [(SQLPyodbcHandler.insert_statement (columns f) table ident, values f)]
          else []).
  split; [exact Hb|]. destruct issued; constructor; [|constructor].
  apply frame_fits_statement; assumption.
Qed.

(** The two-pass branch, once the label has been found. *)
Lemma named_column_run df table kw column vals nulls (st : state) :
  read_only (self st) = false ->
  kwargs_get kw "handle_nulls" KNone = KStr column ->
  column <> "*" ->
  SQLPyodbcHandler._separate_nulls
    (if truthy (kwargs_get kw "remove_nulls" (KBool false)) then dropna df else df)
    (KStr column) st
  = (Return (vals, nulls), st) ->
  SQLPyodbcHandler.bulk_insert
    (SQLPyodbcHandler._insert_values SQLPyodbcHandler._conn)
    SQLPyodbcHandler._separate_nulls df table kw st
  = (SQLPyodbcHandler._insert_values SQLPyodbcHandler._conn vals table
       (kwargs_get kw "identity_insert_on" (KBool false)) ;;;
     SQLPyodbcHandler._insert_values SQLPyodbcHandler._conn nulls table
       (kwargs_get kw "identity_insert_on" (KBool false))) st.
Proof.
  intros Hro Hhn Hstar Hsep. unfold SQLPyodbcHandler.bulk_insert.
  rewrite allow_method_writable by exact Hro. cbv zeta.
  rewrite Hhn. cbn [kwval_eqb].
  destruct (String.eqb_spec column "*") as [Heq|_]; [contradiction|].
  cbn [negb]. unfold bind at 1. rewrite Hsep. reflexivity.
Qed.

(** X10: whatever the null policy, every batch [bulk_insert] hands to
    [executemany] for a well-formed frame has rows of exactly as many values
    as its statement has [?] markers (no [?] in the table name or labels). *)
Theorem bulk_insert_rows_fit_their_statement
        (st : state) (df : DataFrame) (table : string) (kw : kwargs) :
  read_only (self st) = false ->
  wf_frame df ->
  contains_char "?" table = false ->
  Forall (fun c => contains_char "?" c = false) (columns df) ->
  let r := SQLPyodbcHandler.bulk_insert
             (SQLPyodbcHandler._insert_values SQLPyodbcHandler._conn)
             SQLPyodbcHandler._separate_nulls df table kw st in
  exists new,
    batches (calls (snd r)) = batches (calls st) ++ new /\
    Forall (fun b : string * list row =>
              Forall (fun r : row => List.length r = count_char "?" (fst b)) (snd b))
           new.
Proof.
  intros Hro Hwf0 Ht Hcols0 r. subst r.
  set (df' := if truthy (kwargs_get kw "remove_nulls" (KBool false))
              then dropna df else df).
  assert (Hwf : wf_frame df').
  { subst df'. destruct (truthy _); [apply wf_dropna|]; exact Hwf0. }
  assert (Hcols : columns df' = columns df).
  { subst df'. destruct (truthy _); reflexivity. }
  set (ident := kwargs_get kw "identity_insert_on" (KBool false)).
  unfold SQLPyodbcHandler.bulk_insert.
  rewrite allow_method_writable by exact Hro. cbv zeta. fold df' ident.
  destruct (kwval_eqb (kwargs_get kw "handle_nulls" KNone) (KStr "*")).
  { apply one_pass_fits; try assumption.
    - apply wf_star_frame. exact Hwf.
    - rewrite star_frame_columns, Hcols. exact Hcols0. }
  destruct (negb (kwval_eqb (kwargs_get kw "handle_nulls" KNone) KNone)).
  2:{ apply one_pass_fits; try assumption. rewrite Hcols. exact Hcols0. }
  unfold bind at 1.
  destruct (separate_nulls_cases df' (kwargs_get kw "handle_nulls" KNone) st)
    as [(k & Hk)|(vals & nulls & Hsep)].
  { rewrite Hk. exists []. cbn [snd]. rewrite app_nil_r. split; constructor. }
  rewrite Hsep.
  destruct (@separate_nulls_parts_wf _ df' _ vals nulls st st Hwf Hsep)
    as (_ & Hwv & Hcv & Hwn & Hcn).
  unfold bind.
  destruct (@one_pass_fits vals table ident st Hro Hwv Ht)
    as (Hself & new1 & Hb1 & Hf1).
  { rewrite Hcv, Hcols. exact Hcols0. }
  destruct (SQLPyodbcHandler._insert_values SQLPyodbcHandler._conn vals table ident st)
    as [[[]|e] st1]; cbn [fst snd] in *.
  - assert (Hro1 : read_only (self st1) = false) by (rewrite Hself; exact Hro).
    destruct (@one_pass_fits nulls table ident st1 Hro1 Hwn Ht)
      as (_ & new2 & Hb2 & Hf2).
    { rewrite Hcn, Hcols. exact Hcols0. }
    exists (new1 ++ new2). rewrite Hb2, Hb1, <- app_assoc.
    split; [reflexivity|]. apply Forall_app. split; assumption.
  - exists new1. split; assumption.
Qed.

(** X11: the two passes of the named-column policy are two transactions.
    When the driver takes the rows with a value and then refuses the rows
    without, the call raises, and the first part stays committed. *)
Theorem named_column_passes_commit_separately
        (st : state) (df : DataFrame) (table : string) (kw : kwargs)
        (column : string) (i : nat) (d1 : DB) (msg : string) :
  read_only (self st) = false ->
  connect_error (connection_string (self st)) = None ->
  truthy (kwargs_get kw "remove_nulls" (KBool false)) = false ->
  kwargs_get kw "handle_nulls" KNone = KStr column ->
  column <> "*" ->
  col_index column (columns df) = Some i ->
  let present := filter (fun r => notnull (cell i r)) (values df) in
  let nulled : list row :=
    map (set_nth i (fun _ => VNone)) (filter (fun r => isna (cell i r)) (values df)) in
  let sql := SQLPyodbcHandler.insert_statement (columns df) table
               (kwargs_get kw "identity_insert_on" (KBool false)) in
  present <> [] ->
  nulled <> [] ->
  cursor_executemany sql present (db st) = inr d1 ->
  cursor_executemany sql nulled d1 = inl msg ->
  let r := SQLPyodbcHandler.bulk_insert
             (SQLPyodbcHandler._insert_values SQLPyodbcHandler._conn)
             SQLPyodbcHandler._separate_nulls df table kw st in
  fst r = Raise (DriverError msg) /\
  db (snd r) = d1 /\
  batches (calls (snd r)) = batches (calls st) ++ [(sql, present); (sql, nulled)].
Proof.
  intros Hro Hc Hrm Hhn Hstar Hi present nulled sql Hp Hn Hok Hno r. subst r.
  assert (Hsep := @separate_nulls_run _ df column i st Hi).
  fold present nulled in Hsep.
  rewrite (@named_column_run df table kw column _ _ st Hro Hhn Hstar)
    by (rewrite Hrm; exact Hsep).
  unfold bind. rewrite insert_values_run by exact Hro. cbv zeta.
  cbn [values columns]. fold sql.
  destruct present as [|p0 present']; [contradiction|].
  cbn [List.length Nat.ltb Nat.leb]. rewrite Hc, Hok.
  rewrite insert_values_run by exact Hro. cbv zeta.
  cbn [values columns self db calls stdout]. fold sql.
  destruct nulled as [|n0 nulled']; [contradiction|].
  cbn [List.length Nat.ltb Nat.leb]. rewrite Hc, Hno.
  cbn [fst snd db calls]. rewrite !batches_app. cbn. rewrite <- app_assoc.
  repeat split.
Qed.

(** X12: without a null policy the frame goes to the driver as it is,
    missing cells included, in one transaction: the rows are all committed,
    or the call raises and none is. *)
Theorem default_policy_is_all_or_nothing
        (st : state) (df : DataFrame) (table : string) (kw : kwargs) :
  read_only (self st) = false ->
  connect_error (connection_string (self st)) = None ->
  truthy (kwargs_get kw "remove_nulls" (KBool false)) = false ->
  kwargs_get kw "handle_nulls" KNone = KNone ->
  values df <> [] ->
  let sql := SQLPyodbcHandler.insert_statement (columns df) table
               (kwargs_get kw "identity_insert_on" (KBool false)) in
  let r := SQLPyodbcHandler.bulk_insert
             (SQLPyodbcHandler._insert_values SQLPyodbcHandler._conn)
             SQLPyodbcHandler._separate_nulls df table kw st in
  batches (calls (snd r)) = batches (calls st) ++ [(sql, values df)] /\
  match cursor_executemany sql (values df) (db st) with
  | inr d' => fst r = Return tt /\ db (snd r) = d'
  | inl msg => fst r = Raise (DriverError msg) /\ db (snd r) = db st
  end.
Proof.
  intros Hro Hc Hrm Hhn Hne sql r. subst r.
  unfold SQLPyodbcHandler.bulk_insert.
  rewrite allow_method_writable by exact Hro. cbv zeta.
  rewrite Hrm, Hhn. cbn [kwval_eqb negb].
  rewrite insert_values_run by exact Hro. cbv zeta. fold sql.
  destruct (values df) as [|r0 rows]; [contradiction|].
  cbn [List.length Nat.ltb Nat.leb]. rewrite Hc.
  destruct (cursor_executemany sql (r0 :: rows) (db st)) as [msg|d'];
    cbn [fst snd db calls]; rewrite batches_app; cbn; repeat split.
Qed.

End PolicyDetails.

(** ** Policies together, and labels that are not there *)

Lemma cell_of_clean_row (r : row) (i : nat) :
  forallb notnull r = true -> i < List.length r -> isna (cell i r) = false.
Proof.
  intros Hr Hi. rewrite forallb_forall in Hr.
  specialize (Hr (cell i r) (nth_In r VNaN Hi)).
  unfold notnull in Hr. apply negb_true_iff in Hr. exact Hr.
Qed.

Lemma filter_all {A} (f : A -> bool) (l : list A) :
  (forall x, In x l -> f x = true) -> filter f l = l.
Proof.
  induction l as [|x l IH]; intro Hf; [reflexivity|].
  cbn [filter]. rewrite (Hf x (or_introl eq_refl)), IH; [reflexivity|].
  intros y Hy. apply Hf. right. exact Hy.
Qed.

Lemma filter_none {A} (f : A -> bool) (l : list A) :
  (forall x, In x l -> f x = false) -> filter f l = [].
Proof.
  induction l as [|x l IH]; intro Hf; [reflexivity|].
  cbn [filter]. rewrite (Hf x (or_introl eq_refl)). apply IH.
  intros y Hy. apply Hf. right. exact Hy.
Qed.

Section PoliciesTogether.
Context `{Backend}.

(** X9: with [remove_nulls] set and [handle_nulls='*'], [bulk_insert] on a
    writable handle sends exactly the rows that hold no missing cell, each
    as it is in the input: in at most one batch, which is those rows in
    their order, and in exactly that batch when the call returns; it returns
    when the connection opens and the driver takes every batch. *)
Theorem remove_nulls_then_star_sends_kept_rows
        (st : state) (df : DataFrame) (table : string) (kw : kwargs) :
  read_only (self st) = false ->
  wf_frame df ->
  truthy (kwargs_get kw "remove_nulls" (KBool false)) = true ->
  kwargs_get kw "handle_nulls" KNone = KStr "*" ->
  let kept := filter (forallb notnull) (values df) in
  let r := SQLPyodbcHandler.bulk_insert
             (SQLPyodbcHandler._insert_values SQLPyodbcHandler._conn)
             SQLPyodbcHandler._separate_nulls df table kw st in
  (exists passes,
      insert_passes (calls (snd r)) = insert_passes (calls st) ++ passes /\
      List.length passes <= 1 /\
      (forall p, In p passes -> p = kept) /\
      (fst r = Return tt -> List.concat passes = kept)) /\
  (connect_error (connection_string (self st)) = None ->
   (forall sql rows d, exists d', cursor_executemany sql rows d = inr d') ->
   fst r = Return tt).
Proof.
  intros Hro Hwf Hrm Hhn kept r.
  assert (Hrun : r = SQLPyodbcHandler._insert_values SQLPyodbcHandler._conn
                       (astype_object_where_notnull
                          (SQLPyodbcHandler.fill_text_columns (dropna df)))
                       table (kwargs_get kw "identity_insert_on" (KBool false)) st).
  { subst r. unfold SQLPyodbcHandler.bulk_insert.
    rewrite allow_method_writable by exact Hro. cbv zeta.
    rewrite Hrm, Hhn. reflexivity. }
  clearbody r. subst r. subst kept.
  change (filter (forallb notnull) (values df)) with (values (dropna df)).
  rewrite <- (star_after_dropna_values Hwf).
  split; [apply single_pass; exact Hro|].
  intros Hc Hok. apply insert_values_returns; assumption.
Qed.

(** X13: with [remove_nulls] set, a column label as [handle_nulls] has
    nothing left to separate: the part without values is empty, so the rows
    without a missing cell go out in at most one pass. *)
Theorem remove_nulls_leaves_one_pass
        (st : state) (df : DataFrame) (table : string) (kw : kwargs)
        (column : string) (i : nat) :
  read_only (self st) = false ->
  wf_frame df ->
  truthy (kwargs_get kw "remove_nulls" (KBool false)) = true ->
  kwargs_get kw "handle_nulls" KNone = KStr column ->
  column <> "*" ->
  col_index column (columns df) = Some i ->
  let r := SQLPyodbcHandler.bulk_insert
             (SQLPyodbcHandler._insert_values SQLPyodbcHandler._conn)
             SQLPyodbcHandler._separate_nulls df table kw st in
  exists passes,
    insert_passes (calls (snd r)) = insert_passes (calls st) ++ passes /\
    List.length passes <= 1 /\
    (forall p, In p passes -> p = values (dropna df)) /\
    (fst r = Return tt -> List.concat passes = values (dropna df)).
Proof.
  intros Hro Hwf Hrm Hhn Hstar Hi r. subst r.
  assert (Hclean : forall x, In x (values (dropna df)) -> isna (cell i x) = false).
  { intros x Hx. cbn in Hx. apply filter_In in Hx. destruct Hx as [Hx Hc].
    apply cell_of_clean_row; [exact Hc|].
    destruct Hwf as (_ & _ & Hrows). rewrite Forall_forall in Hrows.
    rewrite (Hrows x Hx). eapply col_index_bound. exact Hi. }
  assert (Hsep := @separate_nulls_run _ (dropna df) column i st Hi).
  rewrite (filter_all (fun r => notnull (cell i r)) (values (dropna df))) in Hsep
    by (intros x Hx; unfold notnull; rewrite (Hclean x Hx); reflexivity).
  rewrite (filter_none (fun r => isna (cell i r)) (values (dropna df)) Hclean) in Hsep.
  cbn [map] in Hsep.
  rewrite (@named_column_run _ df table kw column _ _ st Hro Hhn Hstar)
    by (rewrite Hrm; exact Hsep).
  set (ident := kwargs_get kw "identity_insert_on" (KBool false)).
  set (vals := mkFrame (columns (dropna df)) (dtypes (dropna df)) (values (dropna df))).
  destruct (@single_pass _ vals table ident st Hro) as (passes & Hp & Hlen & Hin & Hcat).
  destruct (insert_values_passes vals table ident st Hro) as (Hself & _).
  unfold bind.
  destruct (SQLPyodbcHandler._insert_values SQLPyodbcHandler._conn vals table ident st)
    as [[[]|e] st1]; cbn [fst snd] in *.
  - rewrite insert_values_empty by reflexivity.
    rewrite Hself, Hro. exists passes. repeat split; assumption.
  - exists passes. repeat split; assumption.
Qed.

(** X14: with [remove_nulls] not set, a [handle_nulls] that is neither ['*']
    nor a label of the frame (a misspelt label, or a boolean) makes
    [bulk_insert] on a writable handle raise [KeyError] at the lookup in
    [_separate_nulls], which is the first thing that runs: no connection is
    opened, nothing is sent or printed, and the state is what it was. *)
Theorem unknown_label_raises_key_error
        (st : state) (df : DataFrame) (table : string) (kw : kwargs) :
  read_only (self st) = false ->
  truthy (kwargs_get kw "remove_nulls" (KBool false)) = false ->
  let run := SQLPyodbcHandler.bulk_insert
               (SQLPyodbcHandler._insert_values SQLPyodbcHandler._conn)
               SQLPyodbcHandler._separate_nulls df table kw st in
  (forall column,
      kwargs_get kw "handle_nulls" KNone = KStr column ->
      column <> "*" ->
      col_index column (columns df) = None ->
      run = (Raise (KeyError column), st)) /\
  (forall b,
      kwargs_get kw "handle_nulls" KNone = KBool b ->
      run = (Raise (KeyError (if b then "True" else "False")), st)).
Proof.
  intros Hro Hrm run. subst run. unfold SQLPyodbcHandler.bulk_insert.
  rewrite allow_method_writable by exact Hro. cbv zeta. rewrite Hrm. split.
  - intros column Hhn Hstar Hi. rewrite Hhn. cbn [kwval_eqb].
    destruct (String.eqb_spec column "*") as [Heq|_]; [contradiction|].
    cbn [negb]. unfold bind, SQLPyodbcHandler._separate_nulls.
    rewrite Hi. reflexivity.
  - intros b Hhn. rewrite Hhn. cbn [kwval_eqb negb].
    unfold bind, SQLPyodbcHandler._separate_nulls. destruct b; reflexivity.
Qed.

End PoliciesTogether.

(** ** The catalog queries of the SQL-Server facade *)

Lemma string_app_assoc (a b c : string) :
  ((a ++ b) ++ c = a ++ (b ++ c))%string.
Proof.
  induction a as [|x a IH]; [reflexivity|].
  cbn [String.append]. rewrite IH. reflexivity.
Qed.

Section Catalog.
Context `{Backend}.

Lemma read_query_run (st : state) (sql : string) :
  connect_error (connection_string (self st)) = None ->
  let r := SQLPyodbcHandler.query SQLPyodbcHandler._conn sql None true [] st in
  statements (calls (snd r)) = statements (calls st) ++ [ReadSql sql None] /\
  (forall d' df, read_sql sql None [] (db st) = inr (d', df) ->
                 fst r = Return (Frame df) /\ db (snd r) = d').
Proof.
  intros Hc r. subst r.
  unfold SQLPyodbcHandler.query, bind. rewrite (conn_connected _ Hc). cbn [with_].
  unfold pd_read_sql, bind, log_call, get_txn. cbn [txn connected calls]. split.
  - destruct (read_sql sql None [] (db st)) as [msg|[d' df]];
      cbn; unfold statements; rewrite !filter_app; cbn;
      rewrite ?app_nil_r; reflexivity.
  - intros d' df Hr. rewrite Hr. split; reflexivity.
Qed.

(** X15: the catalog queries are plain queries: they are not stopped on a
    read-only handle, leave [self] alone, send exactly one statement through
    [pd.read_sql] and return the frame the driver answers with.
    [get_view_definition] splices the view name into its statement as it is
    given, between [EXEC sp_helptext] and the semicolon. *)
Theorem catalog_queries_read_through_query (st : state) (name : string) :
  connect_error (connection_string (self st)) = None ->
  let q := SQLPyodbcHandler.query SQLPyodbcHandler._conn in
  let reads (run : M table) (sql : string) :=
    self (snd (run st)) = self st /\
    statements (calls (snd (run st))) = statements (calls st) ++ [ReadSql sql None] /\
    (forall d' df, read_sql sql None [] (db st) = inr (d', df) ->
                   fst (run st) = Return (Frame df) /\ db (snd (run st)) = d') in
  reads (SQLDatabase.get_tables q) SQLDatabase.tables_statement /\
  reads (SQLDatabase.get_views q) SQLDatabase.views_statement /\
  reads (SQLDatabase.get_view_definition q name)
        (SQLDatabase.view_definition_statement name) /\
  SQLDatabase.view_definition_statement name
  = ((SQLDatabase.nl ++ "            EXEC sp_helptext ") ++ name
       ++ (";" ++ SQLDatabase.nl ++ "            "))%string.
Proof.
  intros Hc q reads.
  assert (R : forall sql, reads (q sql None true []) sql).
  { intro sql. subst reads q. cbv beta.
    split; [apply keeps_self_query|]. apply read_query_run. exact Hc. }
  split; [apply R|]. split; [apply R|]. split; [apply R|].
  unfold SQLDatabase.view_definition_statement.
  rewrite string_app_assoc. reflexivity.
Qed.

End Catalog.

(** * Concrete runs for the further properties *)

Lemma execute_commits_or_rolls_back_witness :
  (read_only (self Journal.dev) = false /\
   @connect_error (Journal.backend true) (connection_string (self Journal.dev)) = None) /\
  fst (SQLPyodbcHandler.execute SQLPyodbcHandler._conn
         "DELETE FROM USERS WHERE ID = ?;" [VInt 1] Journal.dev)
  = Return tt /\
  db (snd (SQLPyodbcHandler.execute SQLPyodbcHandler._conn
             "DELETE FROM USERS WHERE ID = ?;" [VInt 1] Journal.dev))
  = [("DELETE FROM USERS WHERE ID = ?;", [VInt 1])] /\
  fst (SQLPyodbcHandler.execute SQLPyodbcHandler._conn
         "DELETE FROM USERS WHERE ID = ?;" [VNone] Journal.dev)
  = Raise (DriverError "NULL not allowed") /\
  db (snd (SQLPyodbcHandler.execute SQLPyodbcHandler._conn
             "DELETE FROM USERS WHERE ID = ?;" [VNone] Journal.dev))
  = [].
Proof.
  split; [split; reflexivity|].
  pose proof (@execute_commits_or_rolls_back (Journal.backend true) Journal.dev
                "DELETE FROM USERS WHERE ID = ?;" [VInt 1] eq_refl eq_refl) as Wok.
  pose proof (@execute_commits_or_rolls_back (Journal.backend true) Journal.dev
                "DELETE FROM USERS WHERE ID = ?;" [VNone] eq_refl eq_refl) as Wno.
  vm_compute in Wok, Wno.
  destruct Wok as (H1 & H2 & _). destruct Wno as (H3 & H4 & _).
  repeat split; assumption.
Defined.

Lemma failed_connection_sends_nothing_witness :
  @connect_error (Journal.backend true) (connection_string (self Journal.offline))
  = Some "IM002" /\
  SQLPyodbcHandler.query SQLPyodbcHandler._conn "SELECT 1;" None true [] Journal.offline
  = (Raise (DriverError "IM002"), unreachable Journal.offline) /\
  SQLPyodbcHandler.iter_execute SQLPyodbcHandler._conn Journal.users_sql
    (values Journal.users) "continue" Journal.offline
  = (Raise (DriverError "IM002"), unreachable Journal.offline) /\
  SQLPyodbcHandler._insert_values SQLPyodbcHandler._conn Journal.users "USERS"
    (KBool false) Journal.offline
  = (Raise (DriverError "IM002"), unreachable Journal.offline).
Proof.
  split; [reflexivity|].
  destruct (@failed_connection_sends_nothing (Journal.backend true) Journal.offline
              "IM002" eq_refl) as (Hq & Hw & _).
  destruct (Hw eq_refl) as (_ & Hiter & Hins).
  split; [apply Hq|]. split; [apply Hiter; reflexivity|].
  apply Hins. discriminate.
Defined.

Lemma query_commits_or_rolls_back_witness :
  @connect_error (Journal.backend true) (connection_string (self Journal.prod)) = None /\
  fst (SQLPyodbcHandler.query SQLPyodbcHandler._conn "DELETE FROM USERS;" (Some [])
         false [] Journal.prod)
  = Raise (DriverError "No results.  Previous SQL was not a query.") /\
  db (snd (SQLPyodbcHandler.query SQLPyodbcHandler._conn "DELETE FROM USERS;" (Some [])
             false [] Journal.prod))
  = [].
Proof.
  split; [reflexivity|].
  destruct (@query_commits_or_rolls_back (Journal.backend true) Journal.prod
              "DELETE FROM USERS;" (Some []) [] eq_refl) as (_ & W).
  vm_compute in W. destruct W as (H1 & H2 & _). split; assumption.
Defined.

Lemma ignore_batches_compose_witness :
  (read_only (self Journal.dev) = false /\
   contains_char "?" Journal.users_sql = true /\
   @connect_error (Journal.backend true) (connection_string (self Journal.dev)) = None) /\
  db (snd (SQLPyodbcHandler.iter_execute SQLPyodbcHandler._conn Journal.users_sql
             ([Journal.mary; Journal.anonymous] ++ [Journal.bill]) "ignore" Journal.dev))
  = db (snd (SQLPyodbcHandler.iter_execute SQLPyodbcHandler._conn Journal.users_sql
               [Journal.bill] "ignore"
               (snd (SQLPyodbcHandler.iter_execute SQLPyodbcHandler._conn
                       Journal.users_sql [Journal.mary; Journal.anonymous] "ignore"
                       Journal.dev)))).
Proof.
  split; [repeat split|].
  exact (proj1 (proj2 (@ignore_batches_compose (Journal.backend true) Journal.dev
                         Journal.users_sql [Journal.mary; Journal.anonymous]
                         [Journal.bill] eq_refl eq_refl eq_refl))).
Defined.

Lemma modes_agree_without_failure_witness :
  (read_only (self Journal.dev) = false /\
   contains_char "?" Journal.users_sql = true /\
   @connect_error (Journal.backend true) (connection_string (self Journal.dev)) = None /\
   first_failure Journal.users_sql [Journal.mary; Journal.bill] (db Journal.dev) = None) /\
  db (snd (SQLPyodbcHandler.iter_execute SQLPyodbcHandler._conn Journal.users_sql
             [Journal.mary; Journal.bill] "raise" Journal.dev))
  = db (snd (SQLPyodbcHandler.iter_execute SQLPyodbcHandler._conn Journal.users_sql
               [Journal.mary; Journal.bill] "ignore" Journal.dev)).
Proof.
  split; [repeat split|].
  exact (proj1 (proj2 (proj2 (@modes_agree_without_failure (Journal.backend true)
                                Journal.dev Journal.users_sql
                                [Journal.mary; Journal.bill]
                                eq_refl eq_refl eq_refl eq_refl)))).
Defined.

Lemma users_labels_plain :
  Forall (fun c => contains_char "?" c = false) (columns Journal.users).
Proof. repeat constructor. Defined.

Lemma insert_statement_has_one_marker_per_column_witness :
  (wf_frame Journal.users /\
   contains_char "?" "USERS" = false /\
   Forall (fun c => contains_char "?" c = false) (columns Journal.users)) /\
  count_char "?"
    (SQLPyodbcHandler.insert_statement (columns Journal.users) "USERS" (KBool true))
  = 2.
Proof.
  split; [split; [apply users_wf|split; [reflexivity|apply users_labels_plain]]|].
  exact (proj1 (@insert_statement_has_one_marker_per_column Journal.users "USERS"
                  (KBool true) users_wf eq_refl users_labels_plain)).
Defined.

Lemma reshaping_keeps_frames_well_formed_witness :
  wf_frame Journal.scores /\
  wf_frame (dropna Journal.scores) /\
  wf_frame (astype_object_where_notnull
              (SQLPyodbcHandler.fill_text_columns Journal.scores)).
Proof.
  split; [apply scores_wf|].
  destruct (@reshaping_keeps_frames_well_formed (Journal.backend true) Journal.scores
              scores_wf) as ((Hd & _) & (Hs & _) & _).
  split; assumption.
Defined.

Lemma star_policy_leaves_no_nan_witness :
  wf_frame Journal.scores /\
  Forall (fun r => forallb bindable r = true)
         (values (astype_object_where_notnull
                    (SQLPyodbcHandler.fill_text_columns Journal.scores))).
Proof.
  split; [apply scores_wf|].
  exact (proj1 (@star_policy_leaves_no_nan Journal.scores scores_wf)).
Defined.

Lemma remove_nulls_then_star_sends_kept_rows_witness :
  (read_only (self Journal.dev_lenient) = false /\
   wf_frame Journal.scores /\
   truthy (kwargs_get [("remove_nulls", KBool true); ("handle_nulls", KStr "*")]
                      "remove_nulls" (KBool false)) = true /\
   kwargs_get [("remove_nulls", KBool true); ("handle_nulls", KStr "*")]
              "handle_nulls" KNone = KStr "*") /\
  fst (SQLPyodbcHandler.bulk_insert
         (SQLPyodbcHandler._insert_values SQLPyodbcHandler._conn)
         SQLPyodbcHandler._separate_nulls Journal.scores "SCORES"
         [("remove_nulls", KBool true); ("handle_nulls", KStr "*")]
         Journal.dev_lenient)
  = Return tt /\
  insert_passes
    (calls (snd (SQLPyodbcHandler.bulk_insert
                   (SQLPyodbcHandler._insert_values SQLPyodbcHandler._conn)
                   SQLPyodbcHandler._separate_nulls Journal.scores "SCORES"
                   [("remove_nulls", KBool true); ("handle_nulls", KStr "*")]
                   Journal.dev_lenient)))
  = [[[VInt 3; VStr "Bill"; VFloat "2.0"]]].
Proof.
  split; [repeat split; apply scores_wf|].
  destruct (@remove_nulls_then_star_sends_kept_rows (Journal.backend false)
              Journal.dev_lenient Journal.scores "SCORES"
              [("remove_nulls", KBool true); ("handle_nulls", KStr "*")]
              eq_refl scores_wf eq_refl eq_refl)
    as ((passes & Hp & Hlen & Hin & Hcat) & Hreturns).
  assert (Hret := Hreturns eq_refl lenient_accepts_batches).
  split; [exact Hret|].
  specialize (Hcat Hret). rewrite Hp.
  cbn [app insert_passes flat_map calls Journal.dev_lenient Journal.start].
  destruct passes as [|p [|q passes]]; simpl in Hlen; try lia.
  - discriminate Hcat.
  - simpl in Hcat. rewrite app_nil_r in Hcat. subst p. reflexivity.
Defined.

Lemma bulk_insert_rows_fit_their_statement_witness :
  (read_only (self Journal.dev_lenient) = false /\
   wf_frame Journal.users /\
   contains_char "?" "USERS" = false /\
   Forall (fun c => contains_char "?" c = false) (columns Journal.users)) /\
  exists new,
    batches (calls (snd (SQLPyodbcHandler.bulk_insert
                           (SQLPyodbcHandler._insert_values SQLPyodbcHandler._conn)
                           SQLPyodbcHandler._separate_nulls Journal.users "USERS"
                           [("handle_nulls", KStr "Name")] Journal.dev_lenient)))
    = batches (calls Journal.dev_lenient) ++ new /\
    Forall (fun b : string * list row =>
              Forall (fun r : row => List.length r = count_char "?" (fst b)) (snd b))
           new.
Proof.
  split; [repeat split; try apply users_wf; apply users_labels_plain|].
  exact (@bulk_insert_rows_fit_their_statement (Journal.backend false)
           Journal.dev_lenient Journal.users "USERS" [("handle_nulls", KStr "Name")]
           eq_refl users_wf eq_refl users_labels_plain).
Defined.

Lemma named_column_passes_commit_separately_witness :
  (read_only (self Journal.dev) = false /\
   @connect_error (Journal.backend true) (connection_string (self Journal.dev)) = None /\
   col_index "Name" (columns Journal.users) = Some 1) /\
  fst (SQLPyodbcHandler.bulk_insert
         (SQLPyodbcHandler._insert_values SQLPyodbcHandler._conn)
         SQLPyodbcHandler._separate_nulls Journal.users "USERS"
         [("handle_nulls", KStr "Name")] Journal.dev)
  = Raise (DriverError "NULL not allowed") /\
  db (snd (SQLPyodbcHandler.bulk_insert
             (SQLPyodbcHandler._insert_values SQLPyodbcHandler._conn)
             SQLPyodbcHandler._separate_nulls Journal.users "USERS"
             [("handle_nulls", KStr "Name")] Journal.dev))
  = [("INSERT INTO USERS (ID,Name) VALUES (?,?);", Journal.mary);
     ("INSERT INTO USERS (ID,Name) VALUES (?,?);", Journal.bill)].
Proof.
  split; [repeat split|].
  assert (Hstar : "Name" <> "*") by discriminate.
  assert (Hp : [Journal.mary; Journal.bill] <> []) by discriminate.
  assert (Hn : [Journal.anonymous] <> []) by discriminate.
  destruct (@named_column_passes_commit_separately (Journal.backend true)
              Journal.dev Journal.users "USERS" [("handle_nulls", KStr "Name")]
              "Name" 1
              [("INSERT INTO USERS (ID,Name) VALUES (?,?);", Journal.mary);
               ("INSERT INTO USERS (ID,Name) VALUES (?,?);", Journal.bill)]
              "NULL not allowed"
              eq_refl eq_refl eq_refl eq_refl Hstar eq_refl Hp Hn eq_refl eq_refl)
    as (Hr & Hd & _).
  split; assumption.
Defined.

Lemma default_policy_is_all_or_nothing_witness :
  (read_only (self Journal.dev) = false /\
   @connect_error (Journal.backend true) (connection_string (self Journal.dev)) = None /\
   values Journal.users <> []) /\
  fst (SQLPyodbcHandler.bulk_insert
         (SQLPyodbcHandler._insert_values SQLPyodbcHandler._conn)
         SQLPyodbcHandler._separate_nulls Journal.users "USERS" [] Journal.dev)
  = Raise (DriverError "NULL not allowed") /\
  db (snd (SQLPyodbcHandler.bulk_insert
             (SQLPyodbcHandler._insert_values SQLPyodbcHandler._conn)
             SQLPyodbcHandler._separate_nulls Journal.users "USERS" [] Journal.dev))
  = [].
Proof.
  assert (Hne : values Journal.users <> []) by discriminate.
  split; [repeat split; exact Hne|].
  destruct (@default_policy_is_all_or_nothing (Journal.backend true) Journal.dev
              Journal.users "USERS" [] eq_refl eq_refl eq_refl eq_refl Hne)
    as (_ & W).
  vm_compute in W. exact W.
Defined.

Lemma remove_nulls_leaves_one_pass_witness :
  (read_only (self Journal.dev_lenient) = false /\
   wf_frame Journal.scores /\
   col_index "Name" (columns Journal.scores) = Some 1) /\
  exists passes,
    insert_passes
      (calls (snd (SQLPyodbcHandler.bulk_insert
                     (SQLPyodbcHandler._insert_values SQLPyodbcHandler._conn)
                     SQLPyodbcHandler._separate_nulls Journal.scores "SCORES"
                     [("remove_nulls", KBool true); ("handle_nulls", KStr "Name")]
                     Journal.dev_lenient)))
    = insert_passes (calls Journal.dev_lenient) ++ passes /\
    List.length passes <= 1.
Proof.
  split; [repeat split; apply scores_wf|].
  assert (Hstar : "Name" <> "*") by discriminate.
  destruct (@remove_nulls_leaves_one_pass (Journal.backend false) Journal.dev_lenient
              Journal.scores "SCORES"
              [("remove_nulls", KBool true); ("handle_nulls", KStr "Name")]
              "Name" 1 eq_refl scores_wf eq_refl eq_refl Hstar eq_refl)
    as (passes & Hp & Hlen & _).
  exists passes. split; assumption.
Defined.

Lemma unknown_label_raises_key_error_witness :
  (read_only (self Journal.dev) = false /\
   truthy (kwargs_get [("handle_nulls", KStr "Nmae")] "remove_nulls" (KBool false))
   = false /\
   col_index "Nmae" (columns Journal.users) = None) /\
  SQLPyodbcHandler.bulk_insert
    (SQLPyodbcHandler._insert_values SQLPyodbcHandler._conn)
    SQLPyodbcHandler._separate_nulls Journal.users "USERS"
    [("handle_nulls", KStr "Nmae")] Journal.dev
  = (Raise (KeyError "Nmae"), Journal.dev) /\
  SQLPyodbcHandler.bulk_insert
    (SQLPyodbcHandler._insert_values SQLPyodbcHandler._conn)
    SQLPyodbcHandler._separate_nulls Journal.users "USERS"
    [("handle_nulls", KBool true)] Journal.dev
  = (Raise (KeyError "True"), Journal.dev).
Proof.
  split; [repeat split|].
  assert (Hstar : "Nmae" <> "*") by discriminate.
  split.
  - exact (proj1 (@unknown_label_raises_key_error (Journal.backend true) Journal.dev
                    Journal.users "USERS" [("handle_nulls", KStr "Nmae")]
                    eq_refl eq_refl)
                 "Nmae" eq_refl Hstar eq_refl).
  - exact (proj2 (@unknown_label_raises_key_error (Journal.backend true) Journal.dev
                    Journal.users "USERS" [("handle_nulls", KBool true)]
                    eq_refl eq_refl)
                 true eq_refl).
Defined.

Lemma catalog_queries_read_through_query_witness :
  (@connect_error Journal.catalog_backend (connection_string (self Journal.reporting))
   = None /\
   read_only (self Journal.reporting) = true) /\
  fst (SQLDatabase.get_view_definition
         (SQLPyodbcHandler.query SQLPyodbcHandler._conn) "dbo.ActiveUsers"
         Journal.reporting)
  = Return (Frame (mkFrame ["stmt"] [object] [])) /\
  fst (SQLDatabase.get_tables (SQLPyodbcHandler.query SQLPyodbcHandler._conn)
         Journal.reporting)
  = Return (Frame (mkFrame ["stmt"] [object] [])).
Proof.
  split; [split; reflexivity|].
  destruct (@catalog_queries_read_through_query Journal.catalog_backend
              Journal.reporting "dbo.ActiveUsers" eq_refl)
    as ((_ & _ & Ht) & _ & (_ & _ & Hv) & _).
  split.
  - exact (proj1 (Hv _ _ eq_refl)).
  - exact (proj1 (Ht _ _ eq_refl)).
Defined.
